(** * Book_Recommendation: the scoring and gamification core

    A shallow embedding of [gamification.py], [recommendation_engine.py],
    [book_manager.py], of [register_child] of [user_manager.py] and of the
    [/api/return] and leaderboard handlers of [api.py], with the properties
    of the scoring function, of the similarity and genre queries, of
    borrowing and returning, and of the streak, points and badge update.

    Modelling conventions.
    - The SQLite database is a record of tables.  A table that the code
      only reaches through its primary key ([users], [user_stats]) is a
      finite map from the key; a table that the code scans ([books],
      [reading_history], [borrowing_records]) is the list of its rows in
      rowid order.
    - Nullable columns that the code tests are [option]s: [None] is SQL
      NULL, which is also Python's [None] once fetched.
    - Python [int]s and SQLite INTEGERs are [Z]; Python [float]s and SQLite
      REALs are exact rationals [Q], compared with [==].
    - A calendar date, stored by the code as a ['%Y-%m-%d'] string, is the
      number of its day; [datetime.now()] is the parameter [today]. *)

From Stdlib Require Import ZArith QArith Qminmax List Lia Permutation Sorted.
From stdpp Require Import gmap strings list fin_maps sorting.

Open Scope string_scope.
Open Scope Z_scope.

(** ** The tables of [database.py] *)

(** [users]: the columns read by the scoring core. *)
Record users_row := {
  u_community_name : option string;
  u_user_type : option string;
  u_age : option Z
}.

(** [books]; [book_id] is the primary key, the rows are kept in rowid
    order. *)
Record books_row := {
  b_book_id : Z;
  b_title : string;
  b_author : option string;
  b_genre : option string;
  b_age_group : option string;
  b_owner_id : Z;
  b_available : Z
}.

(** [borrowing_records]. *)
Record borrowing_row := {
  br_book_id : Z;
  br_borrower_id : Z;
  br_return_date : option Z;
  br_status : string
}.

(** [reading_history]; [rating] is nullable. *)
Record history_row := {
  rh_user_id : Z;
  rh_book_id : Z;
  rh_rating : option Z;
  rh_completed_date : Z;
  rh_review : option string
}.

(** [user_stats], keyed by [user_id]; [badges] is the decoded JSON list. *)
Record stats_row := {
  total_books_read : Z;
  current_streak : Z;
  longest_streak : Z;
  total_points : Z;
  badges : list string;
  last_activity_date : option Z
}.

Record database := {
  users : gmap Z users_row;
  books : list books_row;
  borrowing_records : list borrowing_row;
  reading_history : list history_row;
  user_stats : gmap Z stats_row
}.

(** The row that [register_child] inserts into [user_stats]: the column
    defaults and the empty JSON list. *)
Definition fresh_stats : stats_row :=
  {| total_books_read := 0; current_streak := 0; longest_streak := 0;
     total_points := 0; badges := []; last_activity_date := None |}.

(** ** A state monad for the code that writes to the database *)

Definition DB (A : Type) : Type := database -> A * database.

Definition ret {A} (a : A) : DB A := fun db => (a, db).

Definition bind {A B} (c : DB A) (k : A -> DB B) : DB B :=
  fun db => let (a, db') := c db in k a db'.

Definition get_db : DB database := fun db => (db, db).

Definition put_db (db' : database) : DB unit := fun _ => (tt, db').

Notation "'do' x <- c ; k" := (bind c (fun x => k))
  (at level 10, x name, c at level 100, k at level 200).

(** ** [gamification.py] *)

Module Gamification.

(** The dictionary returned by [update_reading_stats]. *)
Record stats_delta := {
  d_points_earned : Z;
  d_total_points : Z;
  d_new_badges : list string;
  d_current_streak : Z;
  d_longest_streak : Z;
  d_total_books : Z
}.

(** [x in badges] on a Python list of strings. *)
Definition py_in (x : string) (l : list string) : bool :=
  existsb (String.eqb x) l.

(** One [if cond and 'b' not in badges: badges.append('b')]. *)
Definition award (cond : bool) (b : string) (badges : list string)
  : list string :=
  if cond && negb (py_in b badges) then badges ++ [b] else badges.

(** [_check_badges]; [user_id] is not used by the body. *)
Definition _check_badges (user_id total_books current_streak : Z)
    (current_badges : list string) : list string :=
  let badges := current_badges in
  let badges := award (total_books >=? 1) "first_book" badges in
  let badges := award (current_streak >=? 7) "week_streak" badges in
  let badges := award (current_streak >=? 30) "month_streak" badges in
  let badges := award (total_books >=? 10) "bookworm" badges in
  let badges := award (total_books >=? 25) "scholar" badges in
  let badges := award (total_books >=? 50) "genius" badges in
  badges.

(** The streak branch of [update_reading_stats] (lines 65-76):
    [days_diff] is [(today - last_date).days]. *)
Definition step_streak (last_activity : option Z) (today current_streak : Z)
  : Z :=
  match last_activity with
  | Some last_date =>
      let days_diff := today - last_date in
      if days_diff =? 1 then current_streak + 1
      else if days_diff >? 1 then 1
      else current_streak
  | None => 1
  end.

(** [update_reading_stats]: [None] when the reader has no [user_stats]
    row, otherwise the row is rewritten and the delta returned. *)
Definition update_reading_stats (user_id today : Z)
  : DB (option stats_delta) :=
  do db <- get_db;
  match user_stats db !! user_id with
  | None => ret None
  | Some stats =>
      let total_books := total_books_read stats + 1 in
      let current_streak :=
        step_streak (last_activity_date stats) today (current_streak stats) in
      let longest_streak :=
        if current_streak >? longest_streak stats then current_streak
        else longest_streak stats in
      let base_points := 10 in
      let streak_bonus := current_streak * 2 in
      let points_earned := base_points + streak_bonus in
      let total_points := total_points stats + points_earned in
      let old_badges := badges stats in
      let new_badges_list :=
        _check_badges user_id total_books current_streak (badges stats) in
      let newly_earned :=
        List.filter (fun b => negb (py_in b old_badges)) new_badges_list in
      do _ <- put_db {| users := users db;
                books := books db;
                borrowing_records := borrowing_records db;
                reading_history := reading_history db;
                user_stats :=
                  <[user_id := {| total_books_read := total_books;
                                  current_streak := current_streak;
                                  longest_streak := longest_streak;
                                  total_points := total_points;
                                  badges := new_badges_list;
                                  last_activity_date := Some today |}]>
                    (user_stats db) |};
      ret (Some {| d_points_earned := points_earned;
                   d_total_points := total_points;
                   d_new_badges := newly_earned;
                   d_current_streak := current_streak;
                   d_longest_streak := longest_streak;
                   d_total_books := total_books |})
  end.

End Gamification.

(** ** SQL and Python primitives used by the queries *)

(** SQL [a = b] on TEXT values inside WHERE and CASE: NULL on either side
    never matches. *)
Definition sql_eq_text (a b : option string) : bool :=
  match a, b with
  | Some x, Some y => String.eqb x y
  | _, _ => false
  end.

(** SQL [a >= n] on a nullable INTEGER. *)
Definition sql_ge (a : option Z) (n : Z) : bool :=
  match a with
  | Some x => x >=? n
  | None => false
  end.

(** Python truth value of a fetched or submitted rating: [None] and [0]
    are false. *)
Definition truthy (rating : option Z) : bool :=
  match rating with
  | Some r => negb (r =? 0)
  | None => false
  end.

(** SQL [LIMIT ?]: a negative bound means no bound. *)
Definition sql_limit {A} (limit : Z) (l : list A) : list A :=
  if limit <? 0 then l else firstn (Z.to_nat limit) l.

(** Python [l[:limit]]: a negative bound counts from the end. *)
Definition py_slice_to {A} (limit : Z) (l : list A) : list A :=
  if limit <? 0 then firstn (Z.to_nat (Z.of_nat (length l) + limit)) l
  else firstn (Z.to_nat limit) l.

(** Descending stable sort on a key: Python's [sort(key=..., reverse=True)],
    which keeps the input order of equal keys, and the order this model
    gives to SQL's [ORDER BY key DESC], whose order among equal keys SQLite
    leaves open.  [leb] is the order on keys. *)
Section Sorting.
Context {A K : Type} (leb : K -> K -> bool) (key : A -> K).

Fixpoint insert_desc (x : A) (l : list A) : list A :=
  match l with
  | [] => [x]
  | y :: l' =>
      if leb (key y) (key x) then x :: y :: l'
      else y :: insert_desc x l'
  end.

Definition sort_desc (l : list A) : list A :=
  fold_right insert_desc [] l.
End Sorting.

(** What a Python call does: it returns a value or raises. *)
Inductive py_exn := TypeError.

Inductive outcome (A : Type) :=
  | Returns (a : A)
  | Raises (e : py_exn).
Arguments Returns {A} a.
Arguments Raises {A} e.

(** ** [recommendation_engine.py] *)

Module Recommendation.

(** The dictionary returned by [get_user_reading_profile]. *)
Record profile := {
  genres : gmap (option string) Q;
  authors : gmap (option string) Q;
  total_books : Z
}.

(** [d[k] += r] on a [defaultdict(float)]. *)
Definition dd_add (k : option string) (r : Q) (d : gmap (option string) Q)
  : gmap (option string) Q :=
  <[k := (default 0 (d !! k) + r)%Q]> d.

(** The rows [(genre, author, age_group, rating)] of the join of
    [reading_history] with [books] for one reader. *)
Definition history_row_t : Type :=
  option string * option string * option string * option Z.

Definition fetch_history (db : database) (user_id : Z) : list history_row_t :=
  flat_map
    (fun rh =>
       if rh_user_id rh =? user_id then
         map (fun b => (b_genre b, b_author b, b_age_group b, rh_rating rh))
             (List.filter (fun b => b_book_id b =? rh_book_id rh) (books db))
       else [])
    (reading_history db).

(** The body of the [for] loop that accumulates the two score tables. *)
Definition accumulate
    (acc : gmap (option string) Q * gmap (option string) Q)
    (row : history_row_t)
  : gmap (option string) Q * gmap (option string) Q :=
  let '(genre_scores, author_scores) := acc in
  let '(genre, author, _, rating) := row in
  match rating with
  | Some r =>
      if r =? 0 then acc
      else (dd_add genre (inject_Z r) genre_scores,
            dd_add author (inject_Z r) author_scores)
  | None => acc
  end.

Definition get_user_reading_profile (db : database) (user_id : Z) : profile :=
  let history := fetch_history db user_id in
  let '(genre_scores, author_scores) := fold_left accumulate history (∅, ∅) in
  {| genres := genre_scores;
     authors := author_scores;
     total_books := Z.of_nat (length history) |}.

(** The age bracket chosen from the reader's age. *)
Definition age_group_of (age : Z) : string :=
  if age <=? 8 then "5-8"
  else if age <=? 12 then "9-12"
  else if age <=? 16 then "13-16"
  else "16+".

(** The rows [(book_id, title, author, genre)] of the candidate query. *)
Definition book_t : Type := Z * string * option string * option string.

Definition owner_in_community (db : database) (b : books_row)
    (community : option string) : bool :=
  match users db !! b_owner_id b with
  | Some u => sql_eq_text (u_community_name u) community
  | None => false
  end.

Definition read_by (db : database) (user_id : Z) : list Z :=
  map rh_book_id
      (List.filter (fun rh => rh_user_id rh =? user_id) (reading_history db)).

Definition held_by (db : database) (user_id : Z) : list Z :=
  map br_book_id
      (List.filter
         (fun br => (br_borrower_id br =? user_id)
                    && String.eqb (br_status br) "active")
         (borrowing_records db)).

Definition in_ids (x : Z) (ids : list Z) : bool := existsb (Z.eqb x) ids.

Definition fetch_available_books (db : database) (user_id : Z)
    (community : option string) (age_group : string) : list book_t :=
  map (fun b => (b_book_id b, b_title b, b_author b, b_genre b))
      (List.filter
         (fun b =>
            owner_in_community db b community
            && sql_eq_text (b_age_group b) (Some age_group)
            && (b_available b =? 1)
            && negb (in_ids (b_book_id b) (read_by db user_id))
            && negb (in_ids (b_book_id b) (held_by db user_id)))
         (books db)).

(** [SELECT AVG(rating) FROM reading_history WHERE book_id = ?]: the mean
    of the non-NULL ratings, NULL when there is none. *)
Definition ratings_of (db : database) (book_id : Z) : list Z :=
  omap rh_rating
       (List.filter (fun rh => rh_book_id rh =? book_id) (reading_history db)).

Definition fetch_avg_rating (db : database) (book_id : Z) : option Q :=
  match ratings_of db book_id with
  | [] => None
  | rs => Some (Qdiv (inject_Z (fold_right Z.add 0 rs))
                      (inject_Z (Z.of_nat (length rs))))
  end.

(** The [COUNT( * )] of the self-join of [reading_history] (lines 156-164). *)
Definition common_pair (user_id : Z) (p : history_row * history_row) : bool :=
  let (rh1, rh2) := p in
  (rh_book_id rh1 =? rh_book_id rh2)
  && (rh_user_id rh1 =? user_id)
  && negb (rh_user_id rh2 =? user_id)
  && sql_ge (rh_rating rh1) 4
  && sql_ge (rh_rating rh2) 4.

Definition fetch_similar_users (db : database) (user_id : Z) : Z :=
  Z.of_nat
    (length (List.filter (common_pair user_id)
                         (list_prod (reading_history db) (reading_history db)))).

(** The tuples [(book_id, title, author, genre, score)]. *)
Definition rec_t : Type := Z * string * option string * option string * Q.

Definition rec_score (r : rec_t) : Q := snd r.
Definition rec_book (r : rec_t) : book_t := fst r.

(** The body of the scoring loop for one candidate (lines 127-170). *)
Definition score_book (db : database) (user_id : Z) (p : profile)
    (book : book_t) : rec_t :=
  let '(book_id, title, author, genre) := book in
  let score := 0%Q in
  let score :=
    match genres p !! genre with
    | Some w => (score + w * 2.0)%Q
    | None => score
    end in
  let score :=
    match authors p !! author with
    | Some w => (score + w * 1.5)%Q
    | None => score
    end in
  let score :=
    match fetch_avg_rating db book_id with
    | Some avg_rating =>
        if Qeq_bool avg_rating 0 then (score + 3.0)%Q
        else (score + avg_rating)%Q
    | None => (score + 3.0)%Q
    end in
  let similar_users := fetch_similar_users db user_id in
  let score :=
    if similar_users >? 0 then (score + inject_Z similar_users * 0.5)%Q
    else score in
  (book_id, title, author, genre, score).

Definition recommend_books (db : database) (user_id limit : Z)
  : outcome (list rec_t) :=
  match users db !! user_id with
  | None => Returns []
  | Some result =>
      let community := u_community_name result in
      match u_age result with
      | None => Raises TypeError
      | Some age =>
          let age_group := age_group_of age in
          let p := get_user_reading_profile db user_id in
          let available_books :=
            fetch_available_books db user_id community age_group in
          match available_books with
          | [] => Returns []
          | _ =>
              let recommendations :=
                map (score_book db user_id p) available_books in
              let recommendations :=
                sort_desc Qle_bool rec_score recommendations in
              Returns (py_slice_to limit recommendations)
          end
      end
  end.

(** The rows [(book_id, title, author, genre, similarity_score)]. *)
Definition sim_t : Type := Z * string * option string * option string * Z.

Definition sim_score (r : sim_t) : Z := snd r.

(** The SELECT list of the similarity query for one book. *)
Definition similarity_row (target_genre target_author : option string)
    (b : books_row) : sim_t :=
  (b_book_id b, b_title b, b_author b, b_genre b,
   (if sql_eq_text (b_genre b) target_genre then 3 else 0)
   + (if sql_eq_text (b_author b) target_author then 2 else 0)).

(** The WHERE clause of the similarity query. *)
Definition similarity_candidate (book_id : Z) (target_age : option string)
    (b : books_row) : bool :=
  negb (b_book_id b =? book_id)
  && sql_eq_text (b_age_group b) target_age
  && (b_available b =? 1).

Definition find_similar_books (db : database) (book_id limit : Z)
  : list sim_t :=
  match List.find (fun b => b_book_id b =? book_id) (books db) with
  | None => []
  | Some result =>
      let target_genre := b_genre result in
      let target_author := b_author result in
      let target_age := b_age_group result in
      sql_limit limit
        (sort_desc Z.leb sim_score
           (map (similarity_row target_genre target_author)
                (List.filter (similarity_candidate book_id target_age)
                             (books db))))
  end.

End Recommendation.

(** ** [book_manager.py]: returning a book *)

Module BookManager.

(** [return_book].  The two UPDATEs and the INSERT cannot fail on the
    tables modelled here, so the [except] branch, which returns [False],
    is not reached. *)
Definition return_book (book_id borrower_id : Z) (rating : option Z)
    (review : option string) (today : Z) : DB bool :=
  do db <- get_db;
  let records :=
    map (fun br =>
           if (br_book_id br =? book_id)
              && (br_borrower_id br =? borrower_id)
              && String.eqb (br_status br) "active"
           then {| br_book_id := br_book_id br;
                   br_borrower_id := br_borrower_id br;
                   br_return_date := Some today;
                   br_status := "returned" |}
           else br)
        (borrowing_records db) in
  let catalog :=
    map (fun b =>
           if b_book_id b =? book_id
           then {| b_book_id := b_book_id b;
                   b_title := b_title b;
                   b_author := b_author b;
                   b_genre := b_genre b;
                   b_age_group := b_age_group b;
                   b_owner_id := b_owner_id b;
                   b_available := 1 |}
           else b)
        (books db) in
  let history :=
    if truthy rating
    then (reading_history db
          ++ [{| rh_user_id := borrower_id;
                 rh_book_id := book_id;
                 rh_rating := rating;
                 rh_completed_date := today;
                 rh_review := review |}])%list
    else reading_history db in
  do _ <- put_db {| users := users db;
                    books := catalog;
                    borrowing_records := records;
                    reading_history := history;
                    user_stats := user_stats db |};
  ret true.

End BookManager.

(** ** [api.py]: the [/api/return] handler *)

Module Api.

(** The body of a [ReturnRequest]; pydantic checks the types of the
    fields and nothing else. *)
Record ReturnRequest := {
  book_id : Z;
  borrower_id : Z;
  rating : option Z;
  review : option string
}.

(** The JSON object of a successful reply. *)
Record return_reply := {
  success : bool;
  message : string;
  stats_updated : bool
}.

(** What the handler sends: a reply, or the [HTTPException] it raised. *)
Inductive http (A : Type) :=
  | Reply (body : A)
  | HTTPException (status_code : Z) (detail : string).
Arguments Reply {A} body.
Arguments HTTPException {A} status_code detail.

Definition return_book (request : ReturnRequest) (today : Z)
  : DB (http return_reply) :=
  do ok <- BookManager.return_book (book_id request) (borrower_id request)
                                   (rating request) (review request) today;
  if negb ok then ret (HTTPException 400 "Failed to return book")
  else
    do _ <- (if truthy (rating request)
             then Gamification.update_reading_stats (borrower_id request) today
             else ret None);
    ret (Reply {| success := true;
                  message := "Book returned successfully";
                  stats_updated := truthy (rating request) |}).

End Api.

(** ** Notions used in the statements *)

Import Gamification.

(** A sequence of completion events [(reader, day)], processed in order;
    the deltas are collected. *)
Fixpoint record_completions (events : list (Z * Z))
  : DB (list (option stats_delta)) :=
  match events with
  | [] => ret []
  | (user_id, day) :: rest =>
      do d <- update_reading_stats user_id day;
      do ds <- record_completions rest;
      ret (d :: ds)
  end.

(** The total points of a reader, [0] when the reader has no row. *)
Definition points_of (db : database) (user_id : Z) : Z :=
  match user_stats db !! user_id with
  | Some stats => total_points stats
  | None => 0
  end.

(** The badge catalogue: the condition under which each badge id is
    unlocked, over the new total of completions and the new streak. *)
Definition unlocked (total_books streak : Z) (b : string) : Prop :=
  (b = "first_book" /\ 1 <= total_books)
  \/ (b = "week_streak" /\ 7 <= streak)
  \/ (b = "month_streak" /\ 30 <= streak)
  \/ (b = "bookworm" /\ 10 <= total_books)
  \/ (b = "scholar" /\ 25 <= total_books)
  \/ (b = "genius" /\ 50 <= total_books).

(** What a delta reports about the streak and the points:
    [(current_streak, points_earned, total_points)]. *)
Definition streak_and_points (d : option stats_delta) : option (Z * Z * Z) :=
  option_map
    (fun delta =>
       (d_current_streak delta, d_points_earned delta, d_total_points delta))
    d.

(** [l'] is [l] followed by new, pairwise different ids. *)
Definition extends (l l' : list string) : Prop :=
  exists ext,
    l' = (l ++ ext)%list
    /\ List.NoDup ext
    /\ (forall x, In x ext -> ~ In x l).

(** ** The quantities of the scoring formula *)

Import Recommendation.

(** The sum of the ratings of some history rows; a row without a rating
    adds nothing. *)
Definition rating_sum (rows : list history_row_t) : Z :=
  fold_right Z.add 0 (map (fun row => default 0 (snd row)) rows).

(** The genre and the author of a joined history row. *)
Definition row_genre (row : history_row_t) : option string :=
  fst (fst (fst row)).

Definition row_author (row : history_row_t) : option string :=
  snd (fst (fst row)).

(** The sum of the reader's ratings for the items of a genre. *)
Definition genre_weight (db : database) (user_id : Z)
    (genre : option string) : Q :=
  inject_Z
    (rating_sum
       (List.filter (fun row => bool_decide (row_genre row = genre))
                    (fetch_history db user_id))).

(** The sum of the reader's ratings for the items by an author. *)
Definition author_weight (db : database) (user_id : Z)
    (author : option string) : Q :=
  inject_Z
    (rating_sum
       (List.filter (fun row => bool_decide (row_author row = author))
                    (fetch_history db user_id))).

(** The mean of the ratings given to an item by all readers, 3 when no
    completion of the item carries a rating. *)
Definition community_avg_rating (db : database) (book_id : Z) : Q :=
  match ratings_of db book_id with
  | [] => 3
  | rs => Qdiv (inject_Z (fold_right Z.add 0 rs))
               (inject_Z (Z.of_nat (length rs)))
  end.

(** The term that the peer count adds to every score of a call. *)
Definition peer_affinity_bonus (db : database) (user_id : Z) : Q :=
  inject_Z (fetch_similar_users db user_id) * 0.5.

(** The ratings of the data model: every stored rating is one of 1-5. *)
Definition ratings_in_range (db : database) : Prop :=
  forall rh r,
    In rh (reading_history db) -> rh_rating rh = Some r -> 1 <= r <= 5.

(** The score of a candidate without the peer term: lines 128-152 of
    the scoring loop, the peer query and its addition left out. *)
Definition score_without_peer (db : database) (p : profile) (book : book_t)
  : rec_t :=
  let '(book_id, title, author, genre) := book in
  let score := 0%Q in
  let score :=
    match genres p !! genre with
    | Some w => (score + w * 2.0)%Q
    | None => score
    end in
  let score :=
    match authors p !! author with
    | Some w => (score + w * 1.5)%Q
    | None => score
    end in
  let score :=
    match fetch_avg_rating db book_id with
    | Some avg_rating =>
        if Qeq_bool avg_rating 0 then (score + 3.0)%Q
        else (score + avg_rating)%Q
    | None => (score + 3.0)%Q
    end in
  (book_id, title, author, genre, score).



(** [user_id] has a completion of [book_id] rated 4 or more. *)
Definition liked (db : database) (user_id book_id : Z) : bool :=
  existsb
    (fun rh => (rh_user_id rh =? user_id)
               && (rh_book_id rh =? book_id)
               && sql_ge (rh_rating rh) 4)
    (reading_history db).

(** Some item is liked by both [user_id] and [peer]. *)
Definition shares_liked_item (db : database) (user_id peer : Z) : bool :=
  existsb
    (fun rh => (rh_user_id rh =? user_id)
               && sql_ge (rh_rating rh) 4
               && liked db peer (rh_book_id rh))
    (reading_history db).

(** The other readers who share with [user_id] at least one item that both
    rated 4 or more, each listed once. *)
Definition affine_peers (db : database) (user_id : Z) : list Z :=
  remove_dups
    (List.filter
       (fun peer => negb (peer =? user_id) && shares_liked_item db user_id peer)
       (map rh_user_id (reading_history db))).

(** The number of rows of the self-join that a given peer contributes:
    the pairs made of a completion of [user_id] and a completion of [peer]
    of the same item, both rated 4 or more. *)
Definition pairs_with (db : database) (user_id peer : Z) : Z :=
  Z.of_nat
    (length
       (List.filter
          (fun p => common_pair user_id p && (rh_user_id (snd p) =? peer))
          (list_prod (reading_history db) (reading_history db)))).

(** The sum of a list of integers. *)
Definition zsum (l : list Z) : Z := fold_right Z.add 0 l.

(** ** Example databases *)

(** A database holding one reader's stats row and nothing else. *)
Definition reader_db (user_id : Z) (stats : stats_row) : database :=
  {| users := ∅; books := []; borrowing_records := [];
     reading_history := []; user_stats := {[ user_id := stats ]} |}.

(** A reader on a three-day streak whose last activity was on day 100. *)
Definition streak3_stats : stats_row :=
  {| total_books_read := 3; current_streak := 3; longest_streak := 5;
     total_points := 42; badges := ["first_book"];
     last_activity_date := Some 100 |}.

(** An available book of the 9-12 bracket owned by user 1, and a rated
    completion of day 100. *)
Definition mk_book (id : Z) (title author genre : string) : books_row :=
  {| b_book_id := id; b_title := title; b_author := Some author;
     b_genre := Some genre; b_age_group := Some "9-12"; b_owner_id := 1;
     b_available := 1 |}.

Definition mk_rating (user_id book_id rating : Z) : history_row :=
  {| rh_user_id := user_id; rh_book_id := book_id; rh_rating := Some rating;
     rh_completed_date := 100; rh_review := None |}.

(** A small community: a parent who owns five books of the 9-12 bracket
    and two children.  Alice (reader 2) has rated books 1 and 3 with 5;
    Bob (reader 3) has rated book 1 with 5, book 3 with 4 and book 5
    with 4. *)
Definition library_db : database :=
  {| users :=
       <[1 := {| u_community_name := Some "Green Valley";
                 u_user_type := Some "parent"; u_age := None |}]>
       (<[2 := {| u_community_name := Some "Green Valley";
                  u_user_type := Some "child"; u_age := Some 10 |}]>
       (<[3 := {| u_community_name := Some "Green Valley";
                  u_user_type := Some "child"; u_age := Some 11 |}]> ∅));
     books :=
       [mk_book 1 "Harry Potter" "J.K. Rowling" "Fantasy";
        mk_book 2 "Chamber of Secrets" "J.K. Rowling" "Fantasy";
        mk_book 3 "Percy Jackson" "Rick Riordan" "Fantasy";
        mk_book 4 "Matilda" "Roald Dahl" "Humor";
        mk_book 5 "The Hobbit" "J.R.R. Tolkien" "Fantasy"];
     borrowing_records := [];
     reading_history :=
       [mk_rating 2 1 5; mk_rating 2 3 5;
        mk_rating 3 1 5; mk_rating 3 3 4; mk_rating 3 5 4];
     user_stats := <[2 := fresh_stats]> (<[3 := fresh_stats]> ∅) |}.


(** A catalogue of one book that two readers rated -1 and 1: ratings
    outside the data model, with a mean of 0. *)
Definition skewed_db : database :=
  {| users := ∅;
     books := [mk_book 1 "Harry Potter" "J.K. Rowling" "Fantasy"];
     borrowing_records := [];
     reading_history := [mk_rating 3 1 (-1); mk_rating 4 1 1];
     user_stats := ∅ |}.


(** ** Further notions: the stats of one reader along a sequence of events *)

(** The row that [update_reading_stats] writes for a completion of day
    [today] over the row [stats]. *)
Definition completed (user_id today : Z) (stats : stats_row) : stats_row :=
  let streak :=
    step_streak (last_activity_date stats) today (current_streak stats) in
  {| total_books_read := total_books_read stats + 1;
     current_streak := streak;
     longest_streak :=
       if streak >? longest_streak stats then streak else longest_streak stats;
     total_points := total_points stats + (10 + streak * 2);
     badges :=
       _check_badges user_id (total_books_read stats + 1) streak (badges stats);
     last_activity_date := Some today |}.

(** The row of [user_id] after the events, from the row [stats]. *)
Definition stats_after (user_id : Z) (events : list (Z * Z))
    (stats : stats_row) : stats_row :=
  fold_left
    (fun s e => if fst e =? user_id then completed user_id (snd e) s else s)
    events stats.

(** The number of events of a reader. *)
Definition completions_of (user_id : Z) (events : list (Z * Z)) : Z :=
  Z.of_nat (length (List.filter (fun e => fst e =? user_id) events)).

(** One completion a day for [n] days from day [day]. *)
Definition daily (user_id day : Z) (n : nat) : list (Z * Z) :=
  map (fun i => (user_id, day + Z.of_nat i)) (seq 0 n).

(** [k] completions on the same day. *)
Definition same_day (user_id day : Z) (k : nat) : list (Z * Z) :=
  repeat (user_id, day) k.

(** What holds of every stats row that the code produces from the
    onboarding row. *)
Definition stats_invariant (stats : stats_row) : Prop :=
  0 <= total_books_read stats
  /\ 0 <= current_streak stats <= longest_streak stats
  /\ longest_streak stats <= total_books_read stats
  /\ (last_activity_date stats = None -> total_books_read stats = 0)
  /\ (last_activity_date stats <> None -> 1 <= current_streak stats)
  /\ 12 * total_books_read stats <= total_points stats
  /\ total_points stats
     <= 10 * total_books_read stats
        + total_books_read stats * (total_books_read stats + 1).

(** The badges of a row are the ones that its totals unlock: the streak
    badges by the longest streak, the others by the number of books. *)
Definition badges_invariant (stats : stats_row) : Prop :=
  List.NoDup (badges stats)
  /\ (forall b, In b (badges stats)
                <-> unlocked (total_books_read stats) (longest_streak stats) b).

(** The example community with a third child, Chitra (reader 4), who has
    not completed any book yet. *)
Definition newcomer_db : database :=
  {| users :=
       <[4 := {| u_community_name := Some "Green Valley";
                 u_user_type := Some "child"; u_age := Some 9 |}]>
       (users library_db);
     books := books library_db;
     borrowing_records := borrowing_records library_db;
     reading_history := reading_history library_db;
     user_stats := <[4 := fresh_stats]> (user_stats library_db) |}.

(** ** [book_manager.py]: borrowing and adding a book *)

(** The copy of a catalogue row with another [available] flag. *)
Definition set_available (flag : Z) (b : books_row) : books_row :=
  {| b_book_id := b_book_id b;
     b_title := b_title b;
     b_author := b_author b;
     b_genre := b_genre b;
     b_age_group := b_age_group b;
     b_owner_id := b_owner_id b;
     b_available := flag |}.

(** The two writes of [borrow_book]: the INSERT of an active record and the
    UPDATE of the flag.  The inserted record also carries [borrow_date]
    (today) and [due_date] (today plus [days]); these two columns are not
    part of [borrowing_row]. *)
Definition borrowed (db : database) (book_id borrower_id : Z) : database :=
  {| users := users db;
     books :=
       map (fun b => if b_book_id b =? book_id then set_available 0 b else b)
           (books db);
     borrowing_records :=
       (borrowing_records db
        ++ [{| br_book_id := book_id;
               br_borrower_id := borrower_id;
               br_return_date := None;
               br_status := "active" |}])%list;
     reading_history := reading_history db;
     user_stats := user_stats db |}.

(** [borrow_book].  [days] only sets the [due_date], so it does not show
    in the model.  The INSERT and the UPDATE cannot fail on the tables
    modelled here, so the [except] branch is not reached. *)
Definition borrow_book (book_id borrower_id days : Z) : DB (bool * string) :=
  do db <- get_db;
  match List.find (fun b => b_book_id b =? book_id) (books db) with
  | None => ret (false, "Book not found")
  | Some result =>
      if b_available result =? 0
      then ret (false, "Book is currently borrowed")
      else
        do _ <- put_db (borrowed db book_id borrower_id);
        ret (true, "Book borrowed successfully")
  end.

(** [add_book].  [new_id] is [cursor.lastrowid], the rowid that SQLite
    gives to the inserted row; [available] takes its default, 1.  The
    columns [condition], [book_type] and [added_date] are not part of
    [books_row]. *)
Definition add_book (title : string) (author genre age_group : option string)
    (owner_id new_id : Z) : DB (option Z) :=
  do db <- get_db;
  do _ <- put_db
            {| users := users db;
               books :=
                 (books db
                  ++ [{| b_book_id := new_id;
                         b_title := title;
                         b_author := author;
                         b_genre := genre;
                         b_age_group := age_group;
                         b_owner_id := owner_id;
                         b_available := 1 |}])%list;
               borrowing_records := borrowing_records db;
               reading_history := reading_history db;
               user_stats := user_stats db |};
  ret (Some new_id).

(** The book ids of the catalogue are pairwise different: [book_id] is the
    primary key of [books]. *)
Definition book_ids_unique (db : database) : Prop :=
  List.NoDup (map b_book_id (books db)).

(** The reader holds the book: some borrowing record of the pair is
    active. *)
Definition holds (db : database) (borrower_id book_id : Z) : Prop :=
  exists br,
    In br (borrowing_records db)
    /\ br_book_id br = book_id
    /\ br_borrower_id br = borrower_id
    /\ br_status br = "active".

(** The [available] flag of a book, [None] when it is not in the
    catalogue. *)
Definition availability (db : database) (book_id : Z) : option Z :=
  b_available <$> List.find (fun b => b_book_id b =? book_id) (books db).


(** ** [user_manager.py]: registering a child *)

(** [register_child].  [child_id] is [cursor.lastrowid], the rowid that
    SQLite gives to the inserted user; the columns [name] (a string, the
    column being NOT NULL), [parent_id] and [created_date] are not part of
    [users_row].  The second INSERT fails,
    with the first one already executed, when [user_stats] has a row with
    that key; the [except] branch then returns [None]. *)
Definition register_child (parent_id : Z) (age : option Z) (child_id : Z)
  : DB (option Z) :=
  do db <- get_db;
  match users db !! parent_id with
  | None => ret None
  | Some result =>
      let community := u_community_name result in
      let with_child :=
        <[child_id := {| u_community_name := community;
                         u_user_type := Some "child";
                         u_age := age |}]> (users db) in
      match user_stats db !! child_id with
      | Some _ =>
          do _ <- put_db {| users := with_child;
                            books := books db;
                            borrowing_records := borrowing_records db;
                            reading_history := reading_history db;
                            user_stats := user_stats db |};
          ret None
      | None =>
          do _ <- put_db {| users := with_child;
                            books := books db;
                            borrowing_records := borrowing_records db;
                            reading_history := reading_history db;
                            user_stats :=
                              <[child_id := fresh_stats]> (user_stats db) |};
          ret (Some child_id)
      end
  end.

(** ** [gamification.py]: the leaderboard and the stats of a reader *)

(** The dictionary [self.badges]: name, description and icon of a badge
    key. *)
Record badge_info := {
  bi_name : string;
  bi_description : string;
  bi_icon : string
}.

Definition badge_catalogue (key : string) : option badge_info :=
  if String.eqb key "first_book" then
    Some {| bi_name := "First Steps";
            bi_description := "Read your first book!";
            bi_icon := "📖" |}
  else if String.eqb key "week_streak" then
    Some {| bi_name := "Week Warrior";
            bi_description := "7-day reading streak";
            bi_icon := "🔥" |}
  else if String.eqb key "month_streak" then
    Some {| bi_name := "Monthly Master";
            bi_description := "30-day reading streak";
            bi_icon := "⭐" |}
  else if String.eqb key "bookworm" then
    Some {| bi_name := "Bookworm";
            bi_description := "Read 10 books";
            bi_icon := "🐛" |}
  else if String.eqb key "scholar" then
    Some {| bi_name := "Scholar";
            bi_description := "Read 25 books";
            bi_icon := "🎓" |}
  else if String.eqb key "genius" then
    Some {| bi_name := "Reading Genius";
            bi_description := "Read 50 books";
            bi_icon := "🧠" |}
  else None.

(** The dictionary returned by [get_user_stats]. *)
Record stats_view := {
  v_user_id : Z;
  v_name : string;
  v_total_books_read : Z;
  v_current_streak : Z;
  v_longest_streak : Z;
  v_total_points : Z;
  v_badges : list badge_info;
  v_last_activity_date : option Z
}.

(** The rows [(name, books, points, streak, longest)] of the leaderboard. *)
Definition board_t : Type := string * Z * Z * Z * Z.

Definition board_points (r : board_t) : Z := snd (fst (fst r)).

Section NameColumn.
(** The column [name] of [users] (TEXT NOT NULL), which [users_row] does
    not carry, as a function of the user id. *)
Variable user_name : Z -> string.

(** The SELECT of [get_leaderboard] for one row of [user_stats]. *)
Definition board_row (db : database) (community_name : option string)
    (entry : Z * stats_row) : option board_t :=
  let (user_id, us) := entry in
  match users db !! user_id with
  | Some u =>
      if sql_eq_text (u_community_name u) community_name
         && sql_eq_text (u_user_type u) (Some "child")
      then Some (user_name user_id, total_books_read us, total_points us,
                 current_streak us, longest_streak us)
      else None
  | None => None
  end.

Definition get_leaderboard (db : database) (community_name : option string)
    (limit : Z) : list board_t :=
  sql_limit limit
    (sort_desc Z.leb board_points
       (omap (board_row db community_name) (map_to_list (user_stats db)))).

Definition get_user_stats (db : database) (user_id : Z) : option stats_view :=
  match user_stats db !! user_id, users db !! user_id with
  | Some us, Some _ =>
      Some {| v_user_id := user_id;
              v_name := user_name user_id;
              v_total_books_read := total_books_read us;
              v_current_streak := current_streak us;
              v_longest_streak := longest_streak us;
              v_total_points := total_points us;
              v_badges := omap badge_catalogue (badges us);
              v_last_activity_date := last_activity_date us |}
  | _, _ => None
  end.

End NameColumn.

(** ** [recommendation_engine.py]: recommendations within a genre *)

(** [COALESCE(AVG(rh.rating), 3.0)] over the history rows joined to a
    book. *)
Definition coalesce_avg (db : database) (book_id : Z) : Q :=
  match fetch_avg_rating db book_id with
  | Some avg_rating => avg_rating
  | None => 3.0%Q
  end.

(** The WHERE clause of [recommend_by_genre]. *)
Definition genre_candidate (db : database) (user_id : Z)
    (community genre : option string) (age_group : string) (b : books_row)
  : bool :=
  owner_in_community db b community
  && sql_eq_text (b_genre b) genre
  && sql_eq_text (b_age_group b) (Some age_group)
  && (b_available b =? 1)
  && negb (in_ids (b_book_id b) (read_by db user_id)).

(** [recommend_by_genre].  The query groups by [b.book_id], the primary
    key of [books], so every group is one catalogue row. *)
Definition recommend_by_genre (db : database) (user_id : Z)
    (genre : option string) (limit : Z) : outcome (list rec_t) :=
  match users db !! user_id with
  | None => Returns []
  | Some result =>
      let community := u_community_name result in
      match u_age result with
      | None => Raises TypeError
      | Some age =>
          let age_group := age_group_of age in
          Returns
            (sql_limit limit
               (sort_desc Qle_bool rec_score
                  (map (fun b => (b_book_id b, b_title b, b_author b,
                                  b_genre b, coalesce_avg db (b_book_id b)))
                       (List.filter
                          (genre_candidate db user_id community genre
                                           age_group)
                          (books db)))))
      end
  end.

(** ** [book_manager.py]: the most borrowed books *)

(** The ratings of the rows that the joins of [get_popular_books] produce
    for one book: one row per borrowing record of the book and per history
    row of the book, or one row with a NULL rating per borrowing record
    when the book has no history row (LEFT JOIN). *)
Definition popular_join (db : database) (b : books_row) : list (option Z) :=
  flat_map
    (fun br =>
       if br_book_id br =? b_book_id b then
         match List.filter (fun rh => rh_book_id rh =? b_book_id b)
                           (reading_history db) with
         | [] => [None]
         | hs => map rh_rating hs
         end
       else [])
    (borrowing_records db).

(** SQL [AVG] of a column of nullable integers. *)
Definition sql_avg (column : list (option Z)) : option Q :=
  match omap id column with
  | [] => None
  | rs => Some (Qdiv (inject_Z (fold_right Z.add 0 rs))
                     (inject_Z (Z.of_nat (length rs))))
  end.

(** The rows [(title, author, borrow_count, avg_rating)]. *)
Definition popular_t : Type := string * option string * Z * option Q.

Definition popular_count (r : popular_t) : Z := snd (fst r).

(** The group of one book: none when the joins give no row for it. *)
Definition popular_row (db : database) (community_name : option string)
    (b : books_row) : option popular_t :=
  if owner_in_community db b community_name then
    match popular_join db b with
    | [] => None
    | rows => Some (b_title b, b_author b, Z.of_nat (length rows),
                    sql_avg rows)
    end
  else None.

(** [get_popular_books]; the groups are the catalogue rows, [book_id]
    being the primary key. *)
Definition get_popular_books (db : database)
    (community_name : option string) (limit : Z) : list popular_t :=
  sql_limit limit
    (sort_desc Z.leb popular_count
       (omap (popular_row db community_name) (books db))).

(** The number of borrowing records and of history rows of a book. *)
Definition borrow_records_of (db : database) (book_id : Z) : Z :=
  Z.of_nat (length (List.filter (fun br => br_book_id br =? book_id)
                                (borrowing_records db))).

Definition history_rows_of (db : database) (book_id : Z) : Z :=
  Z.of_nat (length (List.filter (fun rh => rh_book_id rh =? book_id)
                                (reading_history db))).

(** ** [api.py]: the leaderboard handler *)

Module Handlers.

(** An entry of the leaderboard reply. *)
Record board_entry := {
  rank : Z;
  name : string;
  books_read : Z;
  total_points : Z;
  current_streak : Z;
  longest_streak : Z
}.

(** [/api/gamification/leaderboard]: [enumerate] numbers the rows from 0,
    the rank is the index plus 1. *)
Definition get_leaderboard (user_name : Z -> string) (db : database)
    (community_name : option string) (limit : Z) : list board_entry :=
  imap (fun idx (r : board_t) =>
          let '(n, b, p, s, l) := r in
          {| rank := Z.of_nat idx + 1; name := n; books_read := b;
             total_points := p; current_streak := s; longest_streak := l |})
       (get_leaderboard user_name db community_name limit).

End Handlers.

(** * Properties of the streak engine *)

Section StreakEngine.

Variables (db : database) (user_id today : Z) (stats : stats_row).
Hypothesis Hrow : user_stats db !! user_id = Some stats.

(** The row written by the update, in terms of the row read. *)
Lemma update_reading_stats_found :
  exists delta db' stats',
    update_reading_stats user_id today db = (Some delta, db')
    /\ user_stats db' !! user_id = Some stats'
    /\ (forall other, other <> user_id ->
          user_stats db' !! other = user_stats db !! other)
    /\ current_streak stats'
       = step_streak (last_activity_date stats) today (current_streak stats)
    /\ longest_streak stats'
       = Z.max (longest_streak stats) (current_streak stats')
    /\ total_points stats'
       = total_points stats + (10 + current_streak stats' * 2)
    /\ total_books_read stats' = total_books_read stats + 1
    /\ badges stats'
       = _check_badges user_id (total_books_read stats')
                       (current_streak stats') (badges stats)
    /\ last_activity_date stats' = Some today
    /\ d_points_earned delta = 10 + current_streak stats' * 2
    /\ d_total_points delta = total_points stats'
    /\ d_current_streak delta = current_streak stats'
    /\ d_longest_streak delta = longest_streak stats'
    /\ d_total_books delta = total_books_read stats'
    /\ d_new_badges delta
       = List.filter (fun b => negb (py_in b (badges stats)))
                     (badges stats').
Proof.
  unfold update_reading_stats, bind, get_db, put_db, ret.
  rewrite Hrow. cbn.
  eexists _, _, _. split; [reflexivity|]. cbn.
  split; [apply lookup_insert_eq|].
  split; [intros other Hne; apply lookup_insert_ne; congruence|].
  cbn. repeat split; try reflexivity.
  destruct (Z.gtb_spec
              (step_streak (last_activity_date stats) today
                           (current_streak stats))
              (longest_streak stats)); lia.
Qed.

End StreakEngine.

(** A reader without a row: nothing is written and [None] is returned. *)
Lemma update_reading_stats_missing (db : database) (user_id today : Z) :
  user_stats db !! user_id = None ->
  update_reading_stats user_id today db = (None, db).
Proof.
  intros Hnone. unfold update_reading_stats, bind, get_db, ret.
  now rewrite Hnone.
Qed.

Lemma step_streak_nonneg (last : option Z) (today streak : Z) :
  0 <= streak -> 0 <= step_streak last today streak.
Proof.
  intros Hs. unfold step_streak. destruct last as [l|]; [|lia].
  cbn. destruct (today - l =? 1); [lia|].
  destruct (today - l >? 1); lia.
Qed.

(** C2. For a completion event processed by the streak engine (the reader
    has a stats row), the new [current_streak] is 1 when the reader has no
    [last_activity_date]; the previous value plus 1 when the event date is
    exactly one day after [last_activity_date]; 1 when the gap is more than
    one day; and the previous value when the gap is 0 days.  The value is
    both persisted and returned. *)
Theorem streak_transition (db : database) (user_id today : Z)
    (stats : stats_row) :
  user_stats db !! user_id = Some stats ->
  exists delta db' stats',
    update_reading_stats user_id today db = (Some delta, db')
    /\ user_stats db' !! user_id = Some stats'
    /\ d_current_streak delta = current_streak stats'
    /\ (last_activity_date stats = None -> current_streak stats' = 1)
    /\ (forall last, last_activity_date stats = Some last ->
          today - last = 1 ->
          current_streak stats' = current_streak stats + 1)
    /\ (forall last, last_activity_date stats = Some last ->
          today - last > 1 ->
          current_streak stats' = 1)
    /\ (forall last, last_activity_date stats = Some last ->
          today - last = 0 ->
          current_streak stats' = current_streak stats).
Proof.
  intros Hrow.
  destruct (update_reading_stats_found db user_id today stats Hrow)
    as (delta & db' & stats' & Hrun & Hget & _ & Hcur & _ & _ & _ & _ & _
        & _ & _ & Hd & _).
  exists delta, db', stats'.
  repeat split; try assumption.
  - intros Hlast. rewrite Hcur, Hlast. reflexivity.
  - intros last Hlast Hgap. rewrite Hcur, Hlast. cbn. now rewrite Hgap.
  - intros last Hlast Hgap. rewrite Hcur, Hlast. cbn.
    destruct (Z.eqb_spec (today - last) 1); [lia|].
    destruct (Z.gtb_spec (today - last) 1); [reflexivity|lia].
  - intros last Hlast Hgap. rewrite Hcur, Hlast. cbn. now rewrite Hgap.
Qed.

Lemma streak_transition_witness :
  exists delta db' stats',
    update_reading_stats 1 101 (reader_db 1 streak3_stats) = (Some delta, db')
    /\ user_stats db' !! 1 = Some stats'
    /\ d_current_streak delta = current_streak stats'
    /\ (last_activity_date streak3_stats = None -> current_streak stats' = 1)
    /\ (forall last, last_activity_date streak3_stats = Some last ->
          101 - last = 1 ->
          current_streak stats' = current_streak streak3_stats + 1)
    /\ (forall last, last_activity_date streak3_stats = Some last ->
          101 - last > 1 ->
          current_streak stats' = 1)
    /\ (forall last, last_activity_date streak3_stats = Some last ->
          101 - last = 0 ->
          current_streak stats' = current_streak streak3_stats).
Proof.
  apply (streak_transition (reader_db 1 streak3_stats) 1 101 streak3_stats).
  reflexivity.
Defined.

(** One step of [record_completions], with the state made explicit. *)
Lemma record_completions_cons (user_id day : Z) (rest : list (Z * Z))
    (db : database) :
  record_completions ((user_id, day) :: rest) db
  = (fst (update_reading_stats user_id day db)
       :: fst (record_completions rest
                 (snd (update_reading_stats user_id day db))),
     snd (record_completions rest
            (snd (update_reading_stats user_id day db)))).
Proof.
  cbn [record_completions]. unfold bind, ret.
  destruct (update_reading_stats user_id day db) as [d db1]. cbn.
  now destruct (record_completions rest db1).
Qed.

(** Processing [e1 ++ e2] is processing [e1], then [e2]. *)
Lemma record_completions_app (e1 e2 : list (Z * Z)) (db : database) :
  snd (record_completions (e1 ++ e2) db)
  = snd (record_completions e2 (snd (record_completions e1 db))).
Proof.
  revert db. induction e1 as [|[u day] e1 IH]; intros db; [reflexivity|].
  rewrite <- app_comm_cons, !record_completions_cons. cbn [snd].
  apply IH.
Qed.

(** A row with a non-negative streak keeps one, and its points never go
    down, whatever events are processed. *)
Lemma record_completions_points (events : list (Z * Z)) :
  forall (db : database) (user_id : Z) (stats : stats_row),
    user_stats db !! user_id = Some stats ->
    0 <= current_streak stats ->
    exists stats',
      user_stats (snd (record_completions events db)) !! user_id = Some stats'
      /\ 0 <= current_streak stats'
      /\ total_points stats <= total_points stats'.
Proof.
  induction events as [|[v day] events IH]; intros db u stats Hrow Hpos.
  - exists stats. cbn. repeat split; [assumption|assumption|lia].
  - rewrite record_completions_cons. cbn [snd].
    destruct (update_reading_stats v day db) as [d db1] eqn:Hstep.
    cbn [snd].
    assert (Hnext : exists stats1,
               user_stats db1 !! u = Some stats1
               /\ 0 <= current_streak stats1
               /\ total_points stats <= total_points stats1).
    { destruct (user_stats db !! v) as [sv|] eqn:Hv.
      - destruct (update_reading_stats_found db v day sv Hv)
          as (delta & db' & sv' & Hrun & Hget & Hother & Hcur & _ & Hpts & _).
        rewrite Hstep in Hrun. injection Hrun as -> ->.
        destruct (Z.eq_dec u v) as [->|Hne].
        + assert (sv = stats) as -> by congruence.
          exists sv'. split; [assumption|].
          pose proof (step_streak_nonneg (last_activity_date stats) day
                        (current_streak stats) Hpos) as Hnn.
          rewrite <- Hcur in Hnn. split; [assumption|lia].
        + exists stats. rewrite (Hother u Hne).
          repeat split; [assumption|assumption|lia].
      - rewrite (update_reading_stats_missing db v day Hv) in Hstep.
        injection Hstep as <- <-.
        exists stats. repeat split; [assumption|assumption|lia]. }
    destruct Hnext as (stats1 & Hrow1 & Hpos1 & Hle1).
    destruct (IH db1 u stats1 Hrow1 Hpos1) as (stats' & Hrow' & Hpos' & Hle').
    exists stats'. repeat split; [assumption|assumption|lia].
Qed.

(** C3. Every successful update earns [10 + 2 * new current_streak]
    points and adds exactly that to [total_points]; a reader's
    [total_points] never goes down along a sequence of completion events
    (the streak of a stats row is never negative: it is 0 at onboarding and
    every update keeps it so); and a new reader who completes on a day, on
    the next day and then three days later earns 12, 14 and 12 points, for
    totals of 12, 26 and 38. *)
Theorem points_accrual (db : database) (user_id : Z) (stats : stats_row) :
  user_stats db !! user_id = Some stats ->
  (forall today,
      exists delta db' stats',
        update_reading_stats user_id today db = (Some delta, db')
        /\ user_stats db' !! user_id = Some stats'
        /\ d_current_streak delta = current_streak stats'
        /\ d_points_earned delta = 10 + current_streak stats' * 2
        /\ total_points stats' = total_points stats + d_points_earned delta
        /\ d_total_points delta = total_points stats')
  /\ (0 <= current_streak stats ->
      forall e1 e2,
        points_of (snd (record_completions e1 db)) user_id
        <= points_of (snd (record_completions (e1 ++ e2) db)) user_id)
  /\ (stats = fresh_stats ->
      forall day,
        map streak_and_points
            (fst (record_completions
                    [(user_id, day); (user_id, day + 1); (user_id, day + 4)]
                    db))
        = [Some (1, 12, 12); Some (2, 14, 26); Some (1, 12, 38)]).
Proof.
  intros Hrow. split; [|split].
  - intros today.
    destruct (update_reading_stats_found db user_id today stats Hrow)
      as (delta & db' & stats' & Hrun & Hget & _ & _ & _ & Hpts & _ & _ & _
          & Hearned & Htotal & Hcur & _).
    exists delta, db', stats'. repeat split; try assumption. lia.
  - intros Hpos e1 e2. rewrite record_completions_app.
    destruct (record_completions_points e1 db user_id stats Hrow Hpos)
      as (s1 & Hrow1 & Hpos1 & _).
    destruct (record_completions_points e2 _ user_id s1 Hrow1 Hpos1)
      as (s2 & Hrow2 & _ & Hle).
    unfold points_of. now rewrite Hrow1, Hrow2.
  - intros -> day. rewrite !record_completions_cons. cbn [fst snd map].
    destruct (update_reading_stats_found db user_id day _ Hrow)
      as (d1 & db1 & s1 & Hrun1 & Hget1 & _ & Hcur1 & _ & Hpts1 & _ & _
          & Hlast1 & He1 & Ht1 & Hc1 & _).
    rewrite Hrun1. cbn [fst snd].
    destruct (update_reading_stats_found db1 user_id (day + 1) _ Hget1)
      as (d2 & db2 & s2 & Hrun2 & Hget2 & _ & Hcur2 & _ & Hpts2 & _ & _
          & Hlast2 & He2 & Ht2 & Hc2 & _).
    rewrite Hrun2. cbn [fst snd].
    destruct (update_reading_stats_found db2 user_id (day + 4) _ Hget2)
      as (d3 & db3 & s3 & Hrun3 & _ & _ & Hcur3 & _ & Hpts3 & _ & _
          & _ & He3 & Ht3 & Hc3 & _).
    rewrite Hrun3. cbn [fst snd record_completions ret].
    cbn in Hcur1. rewrite Hlast1 in Hcur2. rewrite Hlast2 in Hcur3.
    unfold step_streak in Hcur2, Hcur3.
    replace (day + 1 - day) with 1 in Hcur2 by lia.
    replace (day + 4 - (day + 1)) with 3 in Hcur3 by lia.
    cbn in Hcur2, Hcur3. cbn in Hpts1.
    unfold streak_and_points. cbn [option_map].
    rewrite Hc1, He1, Ht1, Hc2, He2, Ht2, Hc3, He3, Ht3.
    rewrite Hpts3, Hpts2, Hpts1, Hcur3, Hcur2, Hcur1. reflexivity.
Qed.

Lemma points_accrual_witness :
  (exists delta db' stats',
      update_reading_stats 1 10 (reader_db 1 fresh_stats) = (Some delta, db')
      /\ user_stats db' !! 1 = Some stats'
      /\ d_current_streak delta = current_streak stats'
      /\ d_points_earned delta = 10 + current_streak stats' * 2
      /\ total_points stats' = total_points fresh_stats + d_points_earned delta
      /\ d_total_points delta = total_points stats')
  /\ points_of (snd (record_completions [(1, 10)] (reader_db 1 fresh_stats))) 1
     <= points_of (snd (record_completions ([(1, 10)] ++ [(1, 11); (1, 14)])
                                           (reader_db 1 fresh_stats))) 1
  /\ map streak_and_points
         (fst (record_completions [(1, 10); (1, 10 + 1); (1, 10 + 4)]
                                  (reader_db 1 fresh_stats)))
     = [Some (1, 12, 12); Some (2, 14, 26); Some (1, 12, 38)].
Proof.
  destruct (points_accrual (reader_db 1 fresh_stats) 1 fresh_stats)
    as (Hstep & Hmono & Hscenario); [reflexivity|].
  split; [apply Hstep|].
  split; [apply Hmono; cbn; lia|].
  apply Hscenario. reflexivity.
Defined.

(** C4. After a completion update the persisted row satisfies
    [longest_streak >= current_streak]: the new [longest_streak] is the
    maximum of the old one and the new [current_streak].  This holds
    whatever the row was before, so in particular when it satisfied the
    bound. *)
Theorem longest_streak_bound (db : database) (user_id today : Z)
    (stats : stats_row) :
  user_stats db !! user_id = Some stats ->
  exists delta db' stats',
    update_reading_stats user_id today db = (Some delta, db')
    /\ user_stats db' !! user_id = Some stats'
    /\ longest_streak stats'
       = Z.max (longest_streak stats) (current_streak stats')
    /\ current_streak stats' <= longest_streak stats'
    /\ d_current_streak delta <= d_longest_streak delta.
Proof.
  intros Hrow.
  destruct (update_reading_stats_found db user_id today stats Hrow)
    as (delta & db' & stats' & Hrun & Hget & _ & _ & Hlong & _ & _ & _ & _
        & _ & _ & Hc & Hl & _).
  exists delta, db', stats'. repeat split; try assumption; lia.
Qed.

Lemma longest_streak_bound_witness :
  exists delta db' stats',
    update_reading_stats 1 101 (reader_db 1 streak3_stats) = (Some delta, db')
    /\ user_stats db' !! 1 = Some stats'
    /\ longest_streak stats'
       = Z.max (longest_streak streak3_stats) (current_streak stats')
    /\ current_streak stats' <= longest_streak stats'
    /\ d_current_streak delta <= d_longest_streak delta.
Proof.
  apply (longest_streak_bound (reader_db 1 streak3_stats) 1 101 streak3_stats).
  reflexivity.
Defined.

(** *** Badges *)

Lemma py_in_In (x : string) (l : list string) : py_in x l = true <-> In x l.
Proof.
  unfold py_in. rewrite existsb_exists. split.
  - intros (y & Hin & Heq). apply String.eqb_eq in Heq. now subst.
  - intros Hin. exists x. split; [assumption|apply String.eqb_refl].
Qed.

Lemma py_in_not_In (x : string) (l : list string) :
  py_in x l = false <-> ~ In x l.
Proof.
  rewrite <- py_in_In. destruct (py_in x l); split; congruence.
Qed.

Lemma extends_refl (l : list string) : extends l l.
Proof.
  exists []. rewrite app_nil_r.
  split; [reflexivity|]. split; [constructor|]. intros x [].
Qed.

Lemma extends_trans (l1 l2 l3 : list string) :
  extends l1 l2 -> extends l2 l3 -> extends l1 l3.
Proof.
  intros (e1 & -> & Hnd1 & Hfresh1) (e2 & -> & Hnd2 & Hfresh2).
  exists (e1 ++ e2)%list. rewrite app_assoc. split; [reflexivity|].
  split.
  - apply List.NoDup_app; repeat split; try assumption.
    intros x Hx1 Hx2. apply (Hfresh2 x Hx2). apply in_or_app. now right.
  - intros x Hx Hl. apply in_app_or in Hx as [Hx|Hx].
    + now apply (Hfresh1 x).
    + apply (Hfresh2 x Hx). apply in_or_app. now left.
Qed.

Lemma award_extends (cond : bool) (b : string) (l : list string) :
  extends l (award cond b l).
Proof.
  unfold award. destruct cond; cbn; [|apply extends_refl].
  destruct (py_in b l) eqn:Hin; cbn; [apply extends_refl|].
  exists [b]. split; [reflexivity|]. split.
  - constructor; [intros []|constructor].
  - intros x [<-|[]]. now apply py_in_not_In.
Qed.

Lemma award_In (cond : bool) (b : string) (l : list string) (x : string) :
  In x (award cond b l) <-> In x l \/ (x = b /\ cond = true).
Proof.
  unfold award. destruct cond; cbn.
  - destruct (py_in b l) eqn:Hin; cbn.
    + apply py_in_In in Hin. split; [tauto|]. intros [H|[-> _]]; assumption.
    + rewrite in_app_iff. cbn. split.
      * intros [H|[<-|[]]]; tauto.
      * intros [H|[-> _]]; tauto.
  - split; [tauto|]. intros [H|[_ H]]; [assumption|discriminate].
Qed.

Lemma check_badges_extends (user_id total_books streak : Z)
    (l : list string) :
  extends l (_check_badges user_id total_books streak l).
Proof.
  unfold _check_badges. cbv zeta.
  repeat (eapply extends_trans; [|apply award_extends]).
  apply extends_refl.
Qed.

Lemma check_badges_In (user_id total_books streak : Z) (l : list string)
    (x : string) :
  In x (_check_badges user_id total_books streak l)
  <-> In x l \/ unlocked total_books streak x.
Proof.
  unfold _check_badges, unlocked. cbv zeta.
  rewrite !award_In, !Z.geb_le. tauto.
Qed.

(** The ids reported as newly earned are exactly the ones appended. *)
Lemma extends_newly_earned (l l' : list string) :
  extends l l' ->
  l' = (l ++ List.filter (fun b => negb (py_in b l)) l')%list
  /\ List.NoDup (List.filter (fun b => negb (py_in b l)) l').
Proof.
  intros (ext & -> & Hnd & Hfresh).
  assert (Hold : List.filter (fun b => negb (py_in b l)) l = []).
  { rewrite (List.filter_ext_in _ (fun _ => false)).
    - apply List.filter_false.
    - intros x Hx. apply py_in_In in Hx. now rewrite Hx. }
  assert (Hext : List.filter (fun b => negb (py_in b l)) ext = ext).
  { apply List.forallb_filter_id, forallb_forall. intros x Hx.
    apply Hfresh, py_in_not_In in Hx. now rewrite Hx. }
  rewrite List.filter_app, Hold, Hext. cbn. split; [reflexivity|assumption].
Qed.

Lemma extends_NoDup (l l' : list string) :
  extends l l' -> List.NoDup l -> List.NoDup l'.
Proof.
  intros (ext & -> & Hnd & Hfresh) Hl.
  apply List.NoDup_app; repeat split; try assumption.
  intros x Hx Hx'. now apply (Hfresh x).
Qed.

(** C5. Every badge id in the list before a completion update is in the
    list after it, and a list without duplicates stays without duplicates:
    the new list is the old one followed by the ids, each once, of the
    badges whose condition holds for the new totals (first completion,
    streak of 7, streak of 30, 10, 25, 50 completions) and which were not
    in the list yet.  These appended ids are the ones reported as new. *)
Theorem badges_only_grow (db : database) (user_id today : Z)
    (stats : stats_row) :
  user_stats db !! user_id = Some stats ->
  exists delta db' stats',
    update_reading_stats user_id today db = (Some delta, db')
    /\ user_stats db' !! user_id = Some stats'
    /\ (forall b, In b (badges stats) -> In b (badges stats'))
    /\ (List.NoDup (badges stats) -> List.NoDup (badges stats'))
    /\ badges stats' = (badges stats ++ d_new_badges delta)%list
    /\ List.NoDup (d_new_badges delta)
    /\ (forall b,
          In b (d_new_badges delta)
          <-> unlocked (total_books_read stats') (current_streak stats') b
              /\ ~ In b (badges stats)).
Proof.
  intros Hrow.
  destruct (update_reading_stats_found db user_id today stats Hrow)
    as (delta & db' & stats' & Hrun & Hget & _ & _ & _ & _ & _ & Hbadges & _
        & _ & _ & _ & _ & _ & Hnew).
  pose proof (check_badges_extends user_id (total_books_read stats')
                (current_streak stats') (badges stats)) as Hext.
  rewrite <- Hbadges in Hext.
  destruct (extends_newly_earned _ _ Hext) as [Happ Hnd].
  rewrite <- Hnew in Happ, Hnd.
  exists delta, db', stats'.
  split; [assumption|]. split; [assumption|].
  split.
  { intros b Hb. rewrite Happ. apply in_or_app. now left. }
  split; [now apply extends_NoDup|].
  split; [assumption|]. split; [assumption|].
  intros b. rewrite Hnew, List.filter_In, Hbadges, check_badges_In.
  rewrite negb_true_iff, py_in_not_In. tauto.
Qed.

Lemma badges_only_grow_witness :
  exists delta db' stats',
    update_reading_stats 1 101 (reader_db 1 streak3_stats) = (Some delta, db')
    /\ user_stats db' !! 1 = Some stats'
    /\ (forall b, In b (badges streak3_stats) -> In b (badges stats'))
    /\ (List.NoDup (badges streak3_stats) -> List.NoDup (badges stats'))
    /\ badges stats' = (badges streak3_stats ++ d_new_badges delta)%list
    /\ List.NoDup (d_new_badges delta)
    /\ (forall b,
          In b (d_new_badges delta)
          <-> unlocked (total_books_read stats') (current_streak stats') b
              /\ ~ In b (badges streak3_stats)).
Proof.
  apply (badges_only_grow (reader_db 1 streak3_stats) 1 101 streak3_stats).
  reflexivity.
Defined.

(** * Properties of the sort and of the result bounds *)

Section SortingFacts.
Context {A K : Type} (leb : K -> K -> bool) (key : A -> K).
Hypothesis leb_total : forall a b, leb a b = true \/ leb b a = true.
Hypothesis leb_trans :
  forall a b c, leb a b = true -> leb b c = true -> leb a c = true.

(** [x] comes before [y] in a descending list: [key y <= key x]. *)
Local Abbreviation desc := (fun x y : A => leb (key y) (key x) = true).

Lemma insert_desc_perm (x : A) (l : list A) :
  insert_desc leb key x l ≡ₚ x :: l.
Proof.
  induction l as [|y l IH]; cbn; [reflexivity|].
  destruct (leb (key y) (key x)); [reflexivity|].
  rewrite IH. apply Permutation_swap.
Qed.

Lemma sort_desc_perm (l : list A) : sort_desc leb key l ≡ₚ l.
Proof.
  induction l as [|x l IH]; cbn; [reflexivity|].
  now rewrite insert_desc_perm, IH.
Qed.

Lemma insert_desc_sorted (x : A) (l : list A) :
  StronglySorted desc l -> StronglySorted desc (insert_desc leb key x l).
Proof.
  induction l as [|y l IH]; intros Hs; cbn.
  - repeat constructor.
  - apply StronglySorted_inv in Hs as [Hs Hy].
    destruct (leb (key y) (key x)) eqn:Hyx.
    + constructor; [now constructor|].
      constructor; [exact Hyx|].
      eapply Forall_impl; [exact Hy|].
      intros z Hz. cbn in *. eauto.
    + constructor; [auto|].
      rewrite insert_desc_perm. constructor; [|assumption].
      destruct (leb_total (key x) (key y)); congruence.
Qed.

Lemma sort_desc_sorted (l : list A) :
  StronglySorted desc (sort_desc leb key l).
Proof.
  induction l as [|x l IH]; cbn; [constructor|].
  now apply insert_desc_sorted.
Qed.

End SortingFacts.

Lemma StronglySorted_weaken {A} (R R' : A -> A -> Prop) (l : list A) :
  (forall x y, R x y -> R' x y) ->
  StronglySorted R l -> StronglySorted R' l.
Proof.
  intros HR. induction 1 as [|x l Hs IH Hx]; constructor; [assumption|].
  eapply Forall_impl; [exact Hx|]. intros y. apply HR.
Qed.

Lemma firstn_incl {A} (n : nat) (l : list A) (x : A) :
  In x (firstn n l) -> In x l.
Proof.
  intros Hx. rewrite <- (firstn_skipn n l). apply in_or_app. now left.
Qed.

Lemma firstn_sorted {A} (R : A -> A -> Prop) (n : nat) (l : list A) :
  StronglySorted R l -> StronglySorted R (firstn n l).
Proof.
  intros Hs. rewrite <- (firstn_skipn n l) in Hs.
  now apply StronglySorted_app_1_l in Hs.
Qed.

(** Both ways of bounding a result keep a prefix of it. *)
Lemma sql_limit_prefix {A} (limit : Z) (l : list A) :
  exists n, sql_limit limit l = firstn n l.
Proof.
  unfold sql_limit. destruct (limit <? 0).
  - exists (length l). symmetry. apply firstn_all.
  - now exists (Z.to_nat limit).
Qed.

Lemma py_slice_to_prefix {A} (limit : Z) (l : list A) :
  exists n, py_slice_to limit l = firstn n l.
Proof.
  unfold py_slice_to. destruct (limit <? 0); eauto.
Qed.

(** * Properties of the similarity query *)



(** The query on an existing reference item: the scored candidates,
    sorted, then bounded. *)
Lemma find_similar_books_found (db : database) (book_id limit : Z)
    (ref : books_row) :
  List.find (fun b => b_book_id b =? book_id) (books db) = Some ref ->
  exists full,
    find_similar_books db book_id limit = sql_limit limit full
    /\ full ≡ₚ map (similarity_row (b_genre ref) (b_author ref))
                   (List.filter
                      (similarity_candidate book_id (b_age_group ref))
                      (books db))
    /\ StronglySorted (fun r1 r2 => sim_score r2 <= sim_score r1) full.
Proof.
  intros Hfind. unfold find_similar_books. rewrite Hfind.
  eexists. split; [reflexivity|]. split; [apply sort_desc_perm|].
  eapply StronglySorted_weaken; [|apply sort_desc_sorted].
  - intros x y Hxy. now apply Z.leb_le.
  - intros a b. rewrite !Z.leb_le. lia.
  - intros a b c. rewrite !Z.leb_le. lia.
Qed.


(** The query on the example community, for "Harry Potter". *)
Example find_similar_books_library :
  find_similar_books library_db 1 5
  = [(2, "Chamber of Secrets", Some "J.K. Rowling", Some "Fantasy", 5);
     (3, "Percy Jackson", Some "Rick Riordan", Some "Fantasy", 3);
     (5, "The Hobbit", Some "J.R.R. Tolkien", Some "Fantasy", 3);
     (4, "Matilda", Some "Roald Dahl", Some "Humor", 0)].
Proof. reflexivity. Qed.





(** * Properties of returning a book *)


(** The stats update touches no table but [user_stats]. *)
Lemma update_reading_stats_frame (user_id today : Z) (db : database) :
  let db' := snd (update_reading_stats user_id today db) in
  users db' = users db
  /\ books db' = books db
  /\ borrowing_records db' = borrowing_records db
  /\ reading_history db' = reading_history db.
Proof.
  unfold update_reading_stats, bind, get_db, put_db, ret. cbn.
  destruct (user_stats db !! user_id); cbn; repeat split.
Qed.




(** * Properties of the reading profile *)

(** [ring] on rationals, after the injected zero is made a constant and
    the looked-up weights are made variables. *)
Ltac q_ring :=
  change (inject_Z 0) with 0%Q;
  repeat match goal with
         | |- context [from_option id ?d ?o] =>
             generalize (from_option id d o); intro
         end;
  ring.

Lemma accumulate_genres (acc : gmap (option string) Q * gmap (option string) Q)
    (row : history_row_t) (k : option string) :
  (default 0 (fst (accumulate acc row) !! k)
   == default 0 (fst acc !! k)
      + inject_Z (if bool_decide (row_genre row = k)
                  then default 0%Z (snd row) else 0%Z))%Q.
Proof.
  destruct acc as [G A], row as [[[g a] ag] [r|]]; cbn.
  - destruct (Z.eqb_spec r 0) as [->|Hr]; cbn.
    + destruct (bool_decide (g = k)); cbn; q_ring.
    + unfold dd_add, row_genre. cbn. case_bool_decide as Hk.
      * subst k. rewrite lookup_insert_eq. cbn. reflexivity.
      * rewrite lookup_insert_ne by assumption. cbn. q_ring.
  - destruct (bool_decide (g = k)); cbn; q_ring.
Qed.

Lemma accumulate_authors
    (acc : gmap (option string) Q * gmap (option string) Q)
    (row : history_row_t) (k : option string) :
  (default 0 (snd (accumulate acc row) !! k)
   == default 0 (snd acc !! k)
      + inject_Z (if bool_decide (row_author row = k)
                  then default 0%Z (snd row) else 0%Z))%Q.
Proof.
  destruct acc as [G A], row as [[[g a] ag] [r|]]; cbn.
  - destruct (Z.eqb_spec r 0) as [->|Hr]; cbn.
    + destruct (bool_decide (a = k)); cbn; q_ring.
    + unfold dd_add, row_author. cbn. case_bool_decide as Hk.
      * subst k. rewrite lookup_insert_eq. cbn. reflexivity.
      * rewrite lookup_insert_ne by assumption. cbn. q_ring.
  - destruct (bool_decide (a = k)); cbn; q_ring.
Qed.

Lemma rating_sum_cons (row : history_row_t) (rows : list history_row_t) :
  rating_sum (row :: rows) = default 0 (snd row) + rating_sum rows.
Proof. reflexivity. Qed.

Lemma fold_accumulate_genres (history : list history_row_t) :
  forall (acc : gmap (option string) Q * gmap (option string) Q)
         (k : option string),
    (default 0 (fst (fold_left accumulate history acc) !! k)
     == default 0 (fst acc !! k)
        + inject_Z
            (rating_sum
               (List.filter (fun row => bool_decide (row_genre row = k))
                            history)))%Q.
Proof.
  induction history as [|row history IH]; intros acc k; cbn [fold_left].
  - cbn. q_ring.
  - rewrite IH, accumulate_genres. cbn [List.filter].
    destruct (bool_decide (row_genre row = k)).
    + rewrite rating_sum_cons, inject_Z_plus. q_ring.
    + q_ring.
Qed.

Lemma fold_accumulate_authors (history : list history_row_t) :
  forall (acc : gmap (option string) Q * gmap (option string) Q)
         (k : option string),
    (default 0 (snd (fold_left accumulate history acc) !! k)
     == default 0 (snd acc !! k)
        + inject_Z
            (rating_sum
               (List.filter (fun row => bool_decide (row_author row = k))
                            history)))%Q.
Proof.
  induction history as [|row history IH]; intros acc k; cbn [fold_left].
  - cbn. q_ring.
  - rewrite IH, accumulate_authors. cbn [List.filter].
    destruct (bool_decide (row_author row = k)).
    + rewrite rating_sum_cons, inject_Z_plus. q_ring.
    + q_ring.
Qed.

(** The two tables of the profile hold the weights; a key that is absent
    stands for the weight 0. *)
Lemma profile_genres (db : database) (user_id : Z) (k : option string) :
  (default 0 (genres (get_user_reading_profile db user_id) !! k)
   == genre_weight db user_id k)%Q.
Proof.
  unfold get_user_reading_profile, genre_weight.
  pose proof (fold_accumulate_genres (fetch_history db user_id) (∅, ∅) k)
    as Hfold.
  destruct (fold_left accumulate (fetch_history db user_id) (∅, ∅))
    as [G A]. cbn in *.
  rewrite Hfold, lookup_empty. cbn. q_ring.
Qed.

Lemma profile_authors (db : database) (user_id : Z) (k : option string) :
  (default 0 (authors (get_user_reading_profile db user_id) !! k)
   == author_weight db user_id k)%Q.
Proof.
  unfold get_user_reading_profile, author_weight.
  pose proof (fold_accumulate_authors (fetch_history db user_id) (∅, ∅) k)
    as Hfold.
  destruct (fold_left accumulate (fetch_history db user_id) (∅, ∅))
    as [G A]. cbn in *.
  rewrite Hfold, lookup_empty. cbn. q_ring.
Qed.

(** * Properties of the scoring function *)

Lemma score_book_split (db : database) (user_id : Z) (p : profile)
    (book : book_t) :
  rec_book (score_book db user_id p book) = book
  /\ rec_book (score_without_peer db p book) = book
  /\ rec_score (score_book db user_id p book)
     = if fetch_similar_users db user_id >? 0
       then (rec_score (score_without_peer db p book)
             + inject_Z (fetch_similar_users db user_id) * 0.5)%Q
       else rec_score (score_without_peer db p book).
Proof.
  destruct book as [[[book_id title] author] genre].
  unfold score_book, score_without_peer, rec_book, rec_score. cbn.
  repeat split.
Qed.

(** The peer term is the bonus, whether or not the count is positive. *)
Lemma score_book_peer (db : database) (user_id : Z) (p : profile)
    (book : book_t) :
  (rec_score (score_book db user_id p book)
   == rec_score (score_without_peer db p book)
      + peer_affinity_bonus db user_id)%Q.
Proof.
  destruct (score_book_split db user_id p book) as (_ & _ & ->).
  unfold peer_affinity_bonus.
  destruct (Z.gtb_spec (fetch_similar_users db user_id) 0) as [Hpos|Hle];
    [reflexivity|].
  assert (fetch_similar_users db user_id = 0) as ->
      by (unfold fetch_similar_users in *; lia).
  q_ring.
Qed.

Lemma sum_at_least_length (rs : list Z) :
  (forall r, In r rs -> 1 <= r) ->
  Z.of_nat (length rs) <= fold_right Z.add 0 rs.
Proof.
  induction rs as [|r rs IH]; intros Hall; cbn [length fold_right]; [lia|].
  pose proof (Hall r (or_introl eq_refl)).
  assert (Z.of_nat (length rs) <= fold_right Z.add 0 rs)
    by (apply IH; intros; apply Hall; now right).
  lia.
Qed.

Lemma ratings_of_in_range (db : database) (book_id r : Z) :
  ratings_in_range db -> In r (ratings_of db book_id) -> 1 <= r <= 5.
Proof.
  intros Hrange Hr. unfold ratings_of in Hr.
  apply list_elem_of_In, list_elem_of_omap in Hr as (rh & Hrh & Hrating).
  apply list_elem_of_In, List.filter_In in Hrh as [Hrh _].
  now apply (Hrange rh r).
Qed.

(** A mean of ratings of the data model is not zero. *)
Lemma mean_not_zero (s n : Z) :
  0 < n -> n <= s -> Qeq_bool (Qdiv (inject_Z s) (inject_Z n)) 0 = false.
Proof.
  intros Hn Hs.
  destruct (Qeq_bool (Qdiv (inject_Z s) (inject_Z n)) 0) eqn:Hzero;
    [|reflexivity].
  apply Qeq_bool_eq in Hzero.
  assert (Hnz : ~ (inject_Z n == 0)%Q).
  { unfold Qeq. cbn. lia. }
  pose proof (Qmult_div_r (inject_Z s) (inject_Z n) Hnz) as Hmul.
  rewrite Hzero, Qmult_0_r in Hmul.
  unfold Qeq in Hmul. cbn in Hmul. lia.
Qed.

(** On ratings of the data model the term added by lines 147-152 is the
    community average. *)
Lemma avg_term_in_range (db : database) (book_id : Z) (score : Q) :
  ratings_in_range db ->
  (match fetch_avg_rating db book_id with
   | Some avg_rating =>
       if Qeq_bool avg_rating 0 then score + 3.0 else score + avg_rating
   | None => score + 3.0
   end == score + community_avg_rating db book_id)%Q.
Proof.
  intros Hrange. unfold fetch_avg_rating, community_avg_rating.
  pose proof (ratings_of_in_range db book_id) as Hin.
  destruct (ratings_of db book_id) as [|r rs] eqn:Hrs.
  - q_ring.
  - rewrite mean_not_zero; [reflexivity| |].
    + cbn [length]. lia.
    + apply sum_at_least_length. intros x Hx.
      now destruct (Hin x Hrange Hx).
Qed.

Lemma score_without_peer_formula (db : database) (user_id book_id : Z)
    (title : string) (author genre : option string) :
  ratings_in_range db ->
  (rec_score (score_without_peer db (get_user_reading_profile db user_id)
                                 (book_id, title, author, genre))
   == genre_weight db user_id genre * 2.0
      + author_weight db user_id author * 1.5
      + community_avg_rating db book_id)%Q.
Proof.
  intros Hrange. unfold score_without_peer, rec_score. cbn [snd].
  rewrite avg_term_in_range by assumption.
  rewrite <- profile_genres, <- profile_authors.
  destruct (genres (get_user_reading_profile db user_id) !! genre),
           (authors (get_user_reading_profile db user_id) !! author);
    cbn; q_ring.
Qed.

Lemma py_slice_to_nil {A} (limit : Z) : py_slice_to limit (@nil A) = [].
Proof.
  unfold py_slice_to. destruct (limit <? 0); cbn; apply firstn_nil.
Qed.

(** [recommend_books] without the early return on an empty pool, which
    gives the same result as the general path. *)
Lemma recommend_books_unfold (db : database) (user_id limit : Z) :
  recommend_books db user_id limit
  = match users db !! user_id with
    | None => Returns []
    | Some result =>
        match u_age result with
        | None => Raises TypeError
        | Some age =>
            Returns
              (py_slice_to limit
                 (sort_desc Qle_bool rec_score
                    (map (score_book db user_id
                            (get_user_reading_profile db user_id))
                         (fetch_available_books db user_id
                            (u_community_name result) (age_group_of age)))))
        end
    end.
Proof.
  unfold recommend_books.
  destruct (users db !! user_id) as [result|]; [|reflexivity].
  destruct (u_age result) as [age|]; [|reflexivity].
  destruct (fetch_available_books db user_id (u_community_name result)
              (age_group_of age)); [|reflexivity].
  cbn. now rewrite py_slice_to_nil.
Qed.

(** Every returned tuple is the scored tuple of a candidate of the pool. *)
Lemma recommend_books_rows (db : database) (user_id limit : Z)
    (recs : list rec_t) (r : rec_t) :
  recommend_books db user_id limit = Returns recs ->
  In r recs ->
  exists result age book,
    users db !! user_id = Some result
    /\ u_age result = Some age
    /\ In book (fetch_available_books db user_id (u_community_name result)
                                      (age_group_of age))
    /\ r = score_book db user_id (get_user_reading_profile db user_id) book.
Proof.
  rewrite recommend_books_unfold.
  destruct (users db !! user_id) as [result|];
    [|intros [= <-] []].
  destruct (u_age result) as [age|] eqn:Hage; [|discriminate].
  intros [= <-] Hr.
  destruct (py_slice_to_prefix limit
              (sort_desc Qle_bool rec_score
                 (map (score_book db user_id
                         (get_user_reading_profile db user_id))
                      (fetch_available_books db user_id
                         (u_community_name result) (age_group_of age)))))
    as [n Hn].
  rewrite Hn in Hr. apply firstn_incl, list_elem_of_In in Hr.
  rewrite sort_desc_perm in Hr.
  apply list_elem_of_In, in_map_iff in Hr as (book & <- & Hbook).
  exists result, age, book. repeat split; auto.
Qed.

(** Outside the data model the mean can be 0, and line 148 then takes the
    neutral 3.0 although the item has rated completions. *)
Example zero_mean_is_neutral :
  ratings_of skewed_db 1 = [-1; 1]
  /\ (rec_score (score_without_peer skewed_db
                                    (get_user_reading_profile skewed_db 2)
                                    (1%Z, "Harry Potter", Some "J.K. Rowling",
                                     Some "Fantasy"))
      == 3.0)%Q.
Proof. split; reflexivity. Qed.

Lemma score_book_formula (db : database) (user_id book_id : Z)
    (title : string) (author genre : option string) :
  ratings_in_range db ->
  (rec_score (score_book db user_id (get_user_reading_profile db user_id)
                         (book_id, title, author, genre))
   == genre_weight db user_id genre * 2.0
      + author_weight db user_id author * 1.5
      + community_avg_rating db book_id
      + peer_affinity_bonus db user_id)%Q.
Proof.
  intros Hrange.
  now rewrite score_book_peer, score_without_peer_formula.
Qed.


Lemma library_db_in_range : ratings_in_range library_db.
Proof.
  intros rh r Hin Hr. cbn in Hin.
  repeat (destruct Hin as [<-|Hin]; [injection Hr as <-; lia|]).
  destruct Hin.
Qed.

(** The recommendations for Alice in the example community, the scores
    reduced: the unread Fantasy book by another author, which Bob rated
    4, scores [(5 + 5) * 2.0 + 4.0 + 1.0 = 25]; the one by an author she
    rated scores [63 / 2 = 31.5]. *)
Example recommend_books_library :
  match recommend_books library_db 2 5 with
  | Returns recs =>
      map (fun r => (fst (fst (fst (fst r))), Qred (rec_score r))) recs
  | Raises _ => []
  end
  = [(2, (63 # 2)%Q); (5, 25%Q); (4, 4%Q)].
Proof. vm_compute. reflexivity. Qed.


(** * The peer term and the ranking *)

Section SortingByKey.
Context {A B K : Type} (leb : K -> K -> bool).





End SortingByKey.






(** * The peer count *)

Lemma zsum_map_add {A} (f g : A -> Z) (l : list A) :
  zsum (map (fun x => f x + g x) l) = zsum (map f l) + zsum (map g l).
Proof.
  unfold zsum. induction l as [|x l IH]; cbn; [reflexivity|]. lia.
Qed.

Lemma zsum_indicator (k0 : Z) (keys : list Z) :
  List.NoDup keys ->
  zsum (map (fun k => if k0 =? k then 1 else 0) keys)
  = if in_ids k0 keys then 1 else 0.
Proof.
  unfold zsum, in_ids.
  induction 1 as [|k keys Hnotin Hnd IH]; cbn; [reflexivity|].
  rewrite IH. destruct (Z.eqb_spec k0 k) as [->|Hne]; cbn; [|reflexivity].
  destruct (existsb (Z.eqb k) keys) eqn:Hex; [|reflexivity].
  apply existsb_exists in Hex as (k' & Hin & Heq).
  apply Z.eqb_eq in Heq. subst k'. contradiction.
Qed.

(** Counting a list is counting it key by key. *)
Lemma length_by_key {A} (key : A -> Z) (keys : list Z) (l : list A) :
  List.NoDup keys ->
  (forall x, In x l -> In (key x) keys) ->
  Z.of_nat (length l)
  = zsum (map (fun k =>
                 Z.of_nat (length (List.filter (fun x => key x =? k) l)))
              keys).
Proof.
  intros Hnd. induction l as [|x l IH]; intros Hkeys.
  - cbn. unfold zsum. induction keys as [|k keys IHk]; cbn; [reflexivity|].
    apply List.NoDup_cons_iff in Hnd as [_ Hnd]. now rewrite <- IHk.
  - rewrite (map_ext _
               (fun k => (if key x =? k then 1 else 0)
                         + Z.of_nat
                             (length (List.filter (fun y => key y =? k) l)))).
    + rewrite zsum_map_add, zsum_indicator by assumption.
      rewrite <- IH by (intros y Hy; apply Hkeys; now right).
      assert (Hin : in_ids (key x) keys = true).
      { unfold in_ids. apply existsb_exists. exists (key x).
        split; [apply Hkeys; now left|apply Z.eqb_refl]. }
      rewrite Hin. cbn [length]. lia.
    + intros k. cbn [List.filter].
      destruct (key x =? k); cbn [length]; lia.
Qed.

Lemma filter_filter_andb {A} (f g : A -> bool) (l : list A) :
  List.filter g (List.filter f l) = List.filter (fun x => f x && g x) l.
Proof.
  induction l as [|x l IH]; cbn; [reflexivity|].
  destruct (f x); cbn; [|assumption].
  destruct (g x); now rewrite IH.
Qed.

Lemma common_pair_true (user_id : Z) (rh1 rh2 : history_row) :
  common_pair user_id (rh1, rh2) = true
  <-> rh_book_id rh1 = rh_book_id rh2
      /\ rh_user_id rh1 = user_id
      /\ rh_user_id rh2 <> user_id
      /\ sql_ge (rh_rating rh1) 4 = true
      /\ sql_ge (rh_rating rh2) 4 = true.
Proof.
  unfold common_pair.
  rewrite !andb_true_iff, negb_true_iff, !Z.eqb_eq, Z.eqb_neq. tauto.
Qed.

(** The peers of the claim are the readers of the second rows of the
    self-join. *)
Lemma affine_peers_In (db : database) (user_id peer : Z) :
  In peer (affine_peers db user_id)
  <-> exists rh1 rh2,
        In rh1 (reading_history db)
        /\ In rh2 (reading_history db)
        /\ common_pair user_id (rh1, rh2) = true
        /\ rh_user_id rh2 = peer.
Proof.
  unfold affine_peers.
  rewrite <- list_elem_of_In, elem_of_remove_dups, list_elem_of_In.
  rewrite List.filter_In, in_map_iff, andb_true_iff, negb_true_iff, Z.eqb_neq.
  unfold shares_liked_item, liked. rewrite existsb_exists. split.
  - intros (_ & Hne & rh1 & Hin1 & Hrh1).
    rewrite !andb_true_iff, existsb_exists in Hrh1.
    destruct Hrh1 as ((Hu & Hge1) & rh2 & Hin2 & Hrh2).
    rewrite !andb_true_iff, !Z.eqb_eq in Hrh2.
    destruct Hrh2 as ((Hpeer & Hbook) & Hge2). apply Z.eqb_eq in Hu.
    exists rh1, rh2. rewrite common_pair_true.
    repeat split; try assumption; congruence.
  - intros (rh1 & rh2 & Hin1 & Hin2 & Hpair & Hpeer).
    apply common_pair_true in Hpair as (Hbook & Hu & Hne & Hge1 & Hge2).
    split; [exists rh2; now split|]. split; [congruence|].
    exists rh1. split; [assumption|].
    rewrite !andb_true_iff, existsb_exists, Z.eqb_eq.
    repeat split; try assumption.
    exists rh2. split; [assumption|].
    rewrite !andb_true_iff, !Z.eqb_eq. repeat split; congruence.
Qed.

(** What the self-join counts: every peer of the claim once for each pair
    of rows it shares with the reader, so at least once. *)
Lemma similar_users_by_peer (db : database) (user_id : Z) :
  fetch_similar_users db user_id
  = zsum (map (pairs_with db user_id) (affine_peers db user_id))
  /\ (forall peer, In peer (affine_peers db user_id) ->
        1 <= pairs_with db user_id peer)
  /\ Z.of_nat (length (affine_peers db user_id))
     <= fetch_similar_users db user_id.
Proof.
  assert (Hsum : fetch_similar_users db user_id
                 = zsum (map (pairs_with db user_id)
                             (affine_peers db user_id))).
  { unfold fetch_similar_users.
    rewrite (length_by_key (fun p => rh_user_id (snd p))
               (affine_peers db user_id)).
    - f_equal. apply map_ext. intros peer. unfold pairs_with.
      now rewrite filter_filter_andb.
    - apply NoDup_ListNoDup, NoDup_remove_dups.
    - intros [rh1 rh2] Hp. apply List.filter_In in Hp as [Hp Hpair].
      apply in_prod_iff in Hp as [Hin1 Hin2].
      apply affine_peers_In. exists rh1, rh2. auto. }
  assert (Hone : forall peer, In peer (affine_peers db user_id) ->
                   1 <= pairs_with db user_id peer).
  { intros peer Hpeer.
    apply affine_peers_In in Hpeer
      as (rh1 & rh2 & Hin1 & Hin2 & Hpair & Hrh2).
    unfold pairs_with.
    assert (Hin : In (rh1, rh2)
                     (List.filter
                        (fun p => common_pair user_id p
                                  && (rh_user_id (snd p) =? peer))
                        (list_prod (reading_history db)
                                   (reading_history db)))).
    { apply List.filter_In. split; [now apply in_prod|].
      rewrite Hpair. cbn. now apply Z.eqb_eq. }
    destruct (List.filter _ _); [destruct Hin|cbn [length]; lia]. }
  split; [assumption|]. split; [assumption|].
  rewrite Hsum. clear Hsum.
  induction (affine_peers db user_id) as [|peer peers IH];
    cbn [length map]; [unfold zsum; cbn; lia|].
  change (zsum (pairs_with db user_id peer
                :: map (pairs_with db user_id) peers))
    with (pairs_with db user_id peer
          + zsum (map (pairs_with db user_id) peers)).
  pose proof (Hone peer (or_introl eq_refl)).
  assert (Z.of_nat (length peers)
          <= zsum (map (pairs_with db user_id) peers))
    by (apply IH; intros; apply Hone; now right).
  lia.
Qed.

(** C6 fails on the code. In the example community Alice has one peer,
    Bob, who shares two liked items with her: the self-join has two rows,
    the term added to every score of her call is 1.0, and 0.5 times the
    number of her peers is 0.5. *)
Theorem peer_counted_once_per_shared_row :
  affine_peers library_db 2 = [3]
  /\ pairs_with library_db 2 3 = 2
  /\ fetch_similar_users library_db 2 = 2
  /\ (forall p book,
        (rec_score (score_book library_db 2 p book)
         == rec_score (score_without_peer library_db p book) + 1.0)%Q)
  /\ ~ (1.0 == 0.5 * inject_Z (Z.of_nat (length (affine_peers library_db 2))))%Q.
Proof.
  split; [reflexivity|]. split; [reflexivity|]. split; [reflexivity|].
  split; [|intros Heq; discriminate Heq].
  intros p book. rewrite score_book_peer. apply Qplus_comp; reflexivity.
Qed.

(** * Further properties of the streak engine *)

(** The update, as a function of the row read. *)
Lemma update_reading_stats_completed (db : database) (user_id today : Z)
    (stats : stats_row) :
  user_stats db !! user_id = Some stats ->
  user_stats (snd (update_reading_stats user_id today db))
  = <[user_id := completed user_id today stats]> (user_stats db).
Proof.
  intros Hrow. unfold update_reading_stats, bind, get_db, put_db, ret.
  rewrite Hrow. reflexivity.
Qed.

Lemma record_completions_frame_tables (events : list (Z * Z)) :
  forall db,
    users (snd (record_completions events db)) = users db
    /\ books (snd (record_completions events db)) = books db
    /\ borrowing_records (snd (record_completions events db))
       = borrowing_records db
    /\ reading_history (snd (record_completions events db))
       = reading_history db.
Proof.
  induction events as [|[u day] events IH]; intros db; [now repeat split|].
  rewrite record_completions_cons. cbn [snd].
  destruct (IH (snd (update_reading_stats u day db))) as (-> & -> & -> & ->).
  apply update_reading_stats_frame.
Qed.

(** Mapping over a found row. *)
Ltac fmap_found :=
  repeat match goal with
         | |- context [?f <$> Some ?x] =>
             change (f <$> Some x) with (Some (f x))
         end.

Lemma stats_after_cons (user_id v day : Z) (events : list (Z * Z))
    (stats : stats_row) :
  stats_after user_id ((v, day) :: events) stats
  = stats_after user_id events
      (if v =? user_id then completed user_id day stats else stats).
Proof. reflexivity. Qed.

(** The row of a reader after a sequence of events is the row computed by
    [stats_after]; a reader without a row never gets one. *)
Lemma record_completions_row (events : list (Z * Z)) :
  forall db user_id,
    user_stats (snd (record_completions events db)) !! user_id
    = stats_after user_id events <$> user_stats db !! user_id.
Proof.
  induction events as [|[v day] events IH]; intros db u.
  - cbn. now destruct (user_stats db !! u).
  - rewrite record_completions_cons. cbn [snd]. rewrite IH.
    destruct (user_stats db !! v) as [sv|] eqn:Hv.
    + rewrite (update_reading_stats_completed db v day sv Hv).
      destruct (Z.eqb_spec v u) as [->|Hne].
      * rewrite lookup_insert_eq, Hv. fmap_found.
        rewrite stats_after_cons, Z.eqb_refl. reflexivity.
      * rewrite lookup_insert_ne by assumption.
        destruct (user_stats db !! u); [|reflexivity]. fmap_found.
        rewrite stats_after_cons.
        now destruct (Z.eqb_spec v u); [contradiction|].
    + rewrite (update_reading_stats_missing db v day Hv). cbn [snd].
      destruct (user_stats db !! u) eqn:Hu; [|reflexivity]. fmap_found.
      rewrite stats_after_cons.
      destruct (Z.eqb_spec v u) as [->|Hne]; [congruence|reflexivity].
Qed.

Lemma completed_longest (user_id today : Z) (stats : stats_row) :
  longest_streak (completed user_id today stats)
  = Z.max (longest_streak stats)
          (current_streak (completed user_id today stats)).
Proof.
  cbn. destruct (Z.gtb_spec
                   (step_streak (last_activity_date stats) today
                                (current_streak stats))
                   (longest_streak stats)); lia.
Qed.

Lemma stats_after_none (user_id : Z) (events : list (Z * Z))
    (stats : stats_row) :
  completions_of user_id events = 0 -> stats_after user_id events stats = stats.
Proof.
  unfold completions_of. revert stats.
  induction events as [|[v day] events IH]; intros stats Hnone;
    [reflexivity|].
  rewrite stats_after_cons. cbn [List.filter fst] in Hnone.
  destruct (v =? user_id); [cbn [length] in Hnone; lia|]. now apply IH.
Qed.

Lemma stats_after_books (user_id : Z) (events : list (Z * Z)) :
  forall stats,
    total_books_read (stats_after user_id events stats)
    = total_books_read stats + completions_of user_id events.
Proof.
  unfold completions_of.
  induction events as [|[v day] events IH]; intros stats; [cbn; lia|].
  rewrite stats_after_cons, IH. cbn [List.filter fst].
  destruct (v =? user_id); cbn [length total_books_read completed]; lia.
Qed.

Lemma completed_invariant (user_id today : Z) (stats : stats_row) :
  stats_invariant stats -> stats_invariant (completed user_id today stats).
Proof.
  unfold stats_invariant.
  intros (Hbooks & Hstreak & Hlong & Hnone & Hsome & Hlow & Hup).
  rewrite completed_longest. cbn.
  assert (Hnew : 1 <= step_streak (last_activity_date stats) today
                                  (current_streak stats)
                 <= total_books_read stats + 1).
  { unfold step_streak. destruct (last_activity_date stats) as [last|];
      [|lia].
    assert (1 <= current_streak stats) by (apply Hsome; discriminate).
    destruct (today - last =? 1); [lia|].
    destruct (today - last >? 1); lia. }
  repeat split; try lia; try discriminate; nia.
Qed.

Lemma stats_after_invariant (user_id : Z) (events : list (Z * Z)) :
  forall stats,
    stats_invariant stats -> stats_invariant (stats_after user_id events stats).
Proof.
  induction events as [|[v day] events IH]; intros stats Hinv;
    [assumption|].
  rewrite stats_after_cons. apply IH.
  destruct (v =? user_id); [now apply completed_invariant|assumption].
Qed.

Lemma fresh_stats_invariant : stats_invariant fresh_stats.
Proof. unfold stats_invariant. cbn. repeat split; try lia; congruence. Qed.

Lemma unlocked_step (total_books longest streak : Z) (b : string) :
  unlocked total_books longest b \/ unlocked (total_books + 1) streak b
  <-> unlocked (total_books + 1) (Z.max longest streak) b.
Proof.
  unfold unlocked.
  destruct (Z.max_spec longest streak) as [[Hle ->]|[Hle ->]];
    split; intros H; intuition lia.
Qed.

Lemma completed_badges (user_id today : Z) (stats : stats_row) :
  badges_invariant stats -> badges_invariant (completed user_id today stats).
Proof.
  intros [Hnd Hin]. split.
  - cbn [badges completed].
    eapply extends_NoDup; [apply check_badges_extends|assumption].
  - intros b. rewrite completed_longest. cbn [badges completed
      total_books_read current_streak].
    rewrite check_badges_In, Hin. apply unlocked_step.
Qed.

Lemma stats_after_badges (user_id : Z) (events : list (Z * Z)) :
  forall stats,
    badges_invariant stats ->
    badges_invariant (stats_after user_id events stats).
Proof.
  induction events as [|[v day] events IH]; intros stats Hinv;
    [assumption|].
  rewrite stats_after_cons. apply IH.
  destruct (v =? user_id); [now apply completed_badges|assumption].
Qed.

Lemma fresh_stats_badges : badges_invariant fresh_stats.
Proof.
  split; [constructor|]. intros b. cbn. unfold unlocked.
  split; [intros []|intros H; intuition lia].
Qed.

(** X1. Processing completion events writes to [user_stats] only: the
    other four tables are unchanged, a reader has a stats row afterwards
    exactly when there was one before (no row is created or deleted), and
    the row of a reader who has no event in the sequence is unchanged. *)
Theorem completions_touch_only_their_rows (events : list (Z * Z))
    (db : database) :
  users (snd (record_completions events db)) = users db
  /\ books (snd (record_completions events db)) = books db
  /\ borrowing_records (snd (record_completions events db))
     = borrowing_records db
  /\ reading_history (snd (record_completions events db))
     = reading_history db
  /\ (forall user_id,
        user_stats (snd (record_completions events db)) !! user_id = None
        <-> user_stats db !! user_id = None)
  /\ (forall user_id,
        completions_of user_id events = 0 ->
        user_stats (snd (record_completions events db)) !! user_id
        = user_stats db !! user_id).
Proof.
  destruct (record_completions_frame_tables events db) as (-> & -> & -> & ->).
  do 4 (split; [reflexivity|]). split.
  - intros user_id. rewrite record_completions_row.
    now destruct (user_stats db !! user_id).
  - intros user_id Hnone. rewrite record_completions_row.
    destruct (user_stats db !! user_id); [|reflexivity]. fmap_found.
    now rewrite stats_after_none.
Qed.

(** X2. Along any sequence of completion events, the [total_books_read]
    of a reader who has a stats row grows by exactly the number of the
    reader's events, whatever their days and whatever the events of other
    readers in between. *)
Theorem completions_are_counted (events : list (Z * Z)) (db : database)
    (user_id : Z) (stats : stats_row) :
  user_stats db !! user_id = Some stats ->
  exists stats',
    user_stats (snd (record_completions events db)) !! user_id = Some stats'
    /\ total_books_read stats'
       = total_books_read stats + completions_of user_id events.
Proof.
  intros Hrow. rewrite record_completions_row, Hrow. fmap_found.
  eexists. split; [reflexivity|]. apply stats_after_books.
Qed.

Lemma completions_are_counted_witness :
  exists stats',
    user_stats (snd (record_completions [(2, 10); (3, 10); (2, 12)]
                                        library_db)) !! 2 = Some stats'
    /\ total_books_read stats'
       = total_books_read fresh_stats
         + completions_of 2 [(2, 10); (3, 10); (2, 12)].
Proof.
  apply (completions_are_counted [(2, 10); (3, 10); (2, 12)] library_db 2
                                 fresh_stats).
  reflexivity.
Defined.

(** X3. A stats row that satisfies [stats_invariant], as the onboarding
    row does, satisfies it after any sequence of completion events: the
    streak is at most the longest streak, which is at most the number of
    books read; once a date is recorded the streak is at least 1; and the
    points lie between 12 per book and [10 n + n (n + 1)] for [n] books. *)
Theorem onboarded_stats_stay_consistent (events : list (Z * Z))
    (db : database) (user_id : Z) (stats : stats_row) :
  user_stats db !! user_id = Some stats ->
  stats_invariant stats ->
  exists stats',
    user_stats (snd (record_completions events db)) !! user_id = Some stats'
    /\ stats_invariant stats'.
Proof.
  intros Hrow Hinv. rewrite record_completions_row, Hrow. fmap_found.
  eexists. split; [reflexivity|]. now apply stats_after_invariant.
Qed.

Lemma onboarded_stats_stay_consistent_witness :
  stats_invariant fresh_stats
  /\ exists stats',
       user_stats (snd (record_completions [(2, 10); (3, 10); (2, 12)]
                                           library_db)) !! 2 = Some stats'
       /\ stats_invariant stats'.
Proof.
  split; [exact fresh_stats_invariant|].
  apply (onboarded_stats_stay_consistent [(2, 10); (3, 10); (2, 12)]
           library_db 2 fresh_stats);
    [reflexivity|exact fresh_stats_invariant].
Defined.

(** X4. A stats row whose badges are exactly the ones its totals unlock,
    each listed once, as in the onboarding row, keeps that property along
    any sequence of completion events: afterwards the reader holds
    [first_book], [bookworm], [scholar], [genius] exactly when
    [total_books_read] is at least 1, 10, 25, 50, and [week_streak],
    [month_streak] exactly when [longest_streak] is at least 7, 30; no
    other id is ever in the list. *)
Theorem badges_follow_totals (events : list (Z * Z)) (db : database)
    (user_id : Z) (stats : stats_row) :
  user_stats db !! user_id = Some stats ->
  badges_invariant stats ->
  exists stats',
    user_stats (snd (record_completions events db)) !! user_id = Some stats'
    /\ List.NoDup (badges stats')
    /\ (forall b,
          In b (badges stats')
          <-> unlocked (total_books_read stats') (longest_streak stats') b).
Proof.
  intros Hrow Hinv. rewrite record_completions_row, Hrow. fmap_found.
  eexists. split; [reflexivity|]. now apply stats_after_badges.
Qed.

Lemma badges_follow_totals_witness :
  badges_invariant fresh_stats
  /\ exists stats',
       user_stats (snd (record_completions [(2, 10); (3, 10); (2, 12)]
                                           library_db)) !! 2 = Some stats'
       /\ List.NoDup (badges stats')
       /\ (forall b,
             In b (badges stats')
             <-> unlocked (total_books_read stats') (longest_streak stats') b).
Proof.
  split; [exact fresh_stats_badges|].
  apply (badges_follow_totals [(2, 10); (3, 10); (2, 12)] library_db 2
                              fresh_stats);
    [reflexivity|exact fresh_stats_badges].
Defined.

Lemma daily_succ (user_id day : Z) (n : nat) :
  daily user_id day (S n) = (user_id, day) :: daily user_id (day + 1) n.
Proof.
  unfold daily. cbn [seq map]. rewrite Z.add_0_r. f_equal.
  rewrite <- seq_shift, map_map. apply map_ext. intros i. f_equal. lia.
Qed.

(** A reader whose last activity was the day before [day] and who reads
    once a day from [day] on. *)
Lemma stats_after_daily (user_id : Z) (n : nat) :
  forall day stats,
    last_activity_date stats = Some (day - 1) ->
    current_streak stats <= longest_streak stats ->
    let stats' := stats_after user_id (daily user_id day n) stats in
    current_streak stats' = current_streak stats + Z.of_nat n
    /\ longest_streak stats'
       = Z.max (longest_streak stats) (current_streak stats + Z.of_nat n)
    /\ total_books_read stats' = total_books_read stats + Z.of_nat n
    /\ total_points stats'
       = total_points stats
         + Z.of_nat n * (10 + 2 * current_streak stats + Z.of_nat n + 1)
    /\ last_activity_date stats' = Some (day - 1 + Z.of_nat n).
Proof.
  induction n as [|n IH]; intros day stats Hlast Hle.
  - cbn. repeat split; try lia. rewrite Hlast. f_equal. lia.
  - rewrite daily_succ. cbv zeta. rewrite stats_after_cons, Z.eqb_refl.
    assert (Hstep : current_streak (completed user_id day stats)
                    = current_streak stats + 1).
    { cbn. rewrite Hlast. unfold step_streak.
      replace (day - (day - 1)) with 1 by lia. reflexivity. }
    destruct (IH (day + 1) (completed user_id day stats))
      as (Hc & Hl & Hb & Hp & Hd).
    { cbn. f_equal. lia. }
    { rewrite completed_longest. lia. }
    rewrite Hc, Hl, Hb, Hp, Hd, completed_longest, Hstep.
    cbn [total_books_read total_points completed].
    fold (completed user_id day stats).
    change (step_streak (last_activity_date stats) day (current_streak stats))
      with (current_streak (completed user_id day stats)).
    rewrite Hstep. repeat split; try lia. f_equal. lia.
Qed.

(** X5. A new reader (onboarding row) who completes one book a day for
    [n + 1] consecutive days ends with a current and longest streak of
    [n + 1], [n + 1] books, [(n + 1) (n + 12)] points and the last day as
    activity date; the reader holds the week badge exactly from the 7th
    day and the month badge exactly from the 30th. *)
Theorem daily_reading_builds_the_streak (db : database) (user_id day : Z)
    (n : nat) :
  user_stats db !! user_id = Some fresh_stats ->
  exists stats',
    user_stats (snd (record_completions (daily user_id day (S n)) db))
      !! user_id = Some stats'
    /\ current_streak stats' = Z.of_nat (S n)
    /\ longest_streak stats' = Z.of_nat (S n)
    /\ total_books_read stats' = Z.of_nat (S n)
    /\ total_points stats' = Z.of_nat (S n) * (Z.of_nat (S n) + 11)
    /\ last_activity_date stats' = Some (day + Z.of_nat n)
    /\ (In "week_streak" (badges stats') <-> 7 <= Z.of_nat (S n))
    /\ (In "month_streak" (badges stats') <-> 30 <= Z.of_nat (S n)).
Proof.
  intros Hrow. rewrite record_completions_row, Hrow. fmap_found.
  eexists. split; [reflexivity|].
  pose proof (stats_after_badges user_id (daily user_id day (S n))
                fresh_stats fresh_stats_badges) as [_ Hbadges].
  rewrite daily_succ, stats_after_cons, Z.eqb_refl in *.
  destruct (stats_after_daily user_id n (day + 1)
              (completed user_id day fresh_stats))
    as (Hc & Hl & Hb & Hp & Hd).
  { cbn. f_equal. lia. }
  { cbn. lia. }
  cbv zeta in *. cbn in Hc, Hl, Hb, Hp, Hd.
  rewrite Hc, Hl, Hb, Hp, Hd.
  repeat split; try lia; try (f_equal; lia).
  - intros Hin. apply Hbadges in Hin. rewrite Hl in Hin.
    unfold unlocked in Hin.
    destruct Hin as [[Hb' _]|[[_ H]|[[Hb' _]|[[Hb' _]|[[Hb' _]|[Hb' _]]]]]];
      try discriminate Hb'. lia.
  - intros Hge. apply Hbadges. rewrite Hl. unfold unlocked.
    right. left. split; [reflexivity|lia].
  - intros Hin. apply Hbadges in Hin. rewrite Hl in Hin.
    unfold unlocked in Hin.
    destruct Hin as [[Hb' _]|[[Hb' _]|[[_ H]|[[Hb' _]|[[Hb' _]|[Hb' _]]]]]];
      try discriminate Hb'. lia.
  - intros Hge. apply Hbadges. rewrite Hl. unfold unlocked.
    right. right. left. split; [reflexivity|lia].
Qed.

Lemma daily_reading_builds_the_streak_witness :
  exists stats',
    user_stats (snd (record_completions (daily 2 100 (S 6)) library_db))
      !! 2 = Some stats'
    /\ current_streak stats' = Z.of_nat (S 6)
    /\ longest_streak stats' = Z.of_nat (S 6)
    /\ total_books_read stats' = Z.of_nat (S 6)
    /\ total_points stats' = Z.of_nat (S 6) * (Z.of_nat (S 6) + 11)
    /\ last_activity_date stats' = Some (100 + Z.of_nat 6)
    /\ (In "week_streak" (badges stats') <-> 7 <= Z.of_nat (S 6))
    /\ (In "month_streak" (badges stats') <-> 30 <= Z.of_nat (S 6)).
Proof.
  apply (daily_reading_builds_the_streak library_db 2 100 6). reflexivity.
Defined.

Lemma stats_after_same_day (user_id day : Z) (k : nat) :
  forall stats,
    last_activity_date stats = Some day ->
    current_streak stats <= longest_streak stats ->
    let stats' := stats_after user_id (same_day user_id day k) stats in
    current_streak stats' = current_streak stats
    /\ longest_streak stats' = longest_streak stats
    /\ total_books_read stats' = total_books_read stats + Z.of_nat k
    /\ total_points stats'
       = total_points stats + Z.of_nat k * (10 + current_streak stats * 2)
    /\ last_activity_date stats' = Some day.
Proof.
  induction k as [|k IH]; intros stats Hlast Hle.
  - cbn. repeat split; try lia. assumption.
  - cbv zeta. cbn [same_day repeat].
    rewrite stats_after_cons, Z.eqb_refl.
    assert (Hstep : current_streak (completed user_id day stats)
                    = current_streak stats).
    { cbn. rewrite Hlast. unfold step_streak.
      replace (day - day) with 0 by lia. reflexivity. }
    destruct (IH (completed user_id day stats)) as (Hc & Hl & Hb & Hp & Hd).
    { reflexivity. }
    { rewrite completed_longest. lia. }
    fold (same_day user_id day k).
    rewrite Hc, Hl, Hb, Hp, Hd, completed_longest, Hstep.
    cbn [total_books_read total_points completed].
    change (step_streak (last_activity_date stats) day (current_streak stats))
      with (current_streak (completed user_id day stats)).
    rewrite Hstep. repeat split; lia.
Qed.

(** X6. Further completions on the day of the last activity leave the
    streak and the longest streak as they are, but each one still counts
    as a book and earns [10 + 2 * current_streak] points. *)
Theorem same_day_completions_keep_the_streak (db : database)
    (user_id day : Z) (k : nat) (stats : stats_row) :
  user_stats db !! user_id = Some stats ->
  last_activity_date stats = Some day ->
  current_streak stats <= longest_streak stats ->
  exists stats',
    user_stats (snd (record_completions (same_day user_id day k) db))
      !! user_id = Some stats'
    /\ current_streak stats' = current_streak stats
    /\ longest_streak stats' = longest_streak stats
    /\ total_books_read stats' = total_books_read stats + Z.of_nat k
    /\ total_points stats'
       = total_points stats + Z.of_nat k * (10 + current_streak stats * 2)
    /\ last_activity_date stats' = Some day.
Proof.
  intros Hrow Hlast Hle. rewrite record_completions_row, Hrow. fmap_found.
  eexists. split; [reflexivity|]. now apply stats_after_same_day.
Qed.

Lemma same_day_completions_keep_the_streak_witness :
  exists stats',
    user_stats (snd (record_completions (same_day 1 100 3)
                                        (reader_db 1 streak3_stats)))
      !! 1 = Some stats'
    /\ current_streak stats' = current_streak streak3_stats
    /\ longest_streak stats' = longest_streak streak3_stats
    /\ total_books_read stats' = total_books_read streak3_stats + Z.of_nat 3
    /\ total_points stats'
       = total_points streak3_stats
         + Z.of_nat 3 * (10 + current_streak streak3_stats * 2)
    /\ last_activity_date stats' = Some 100.
Proof.
  apply (same_day_completions_keep_the_streak (reader_db 1 streak3_stats)
           1 100 3 streak3_stats);
    [reflexivity|reflexivity|cbn; lia].
Defined.

(** * Further properties of [recommend_books] *)

Lemma in_ids_false (x : Z) (ids : list Z) :
  in_ids x ids = false <-> ~ In x ids.
Proof.
  unfold in_ids. split.
  - intros Hfalse Hin.
    assert (existsb (Z.eqb x) ids = true)
      by (apply existsb_exists; exists x; split;
          [assumption|apply Z.eqb_refl]).
    congruence.
  - intros Hnot. destruct (existsb (Z.eqb x) ids) eqn:Hex; [|reflexivity].
    apply existsb_exists in Hex as (y & Hy & Heq).
    apply Z.eqb_eq in Heq. now subst.
Qed.

(** The candidate query, row by row. *)
Lemma fetch_available_books_In (db : database) (user_id : Z)
    (community : option string) (age_group : string) (book : book_t) :
  In book (fetch_available_books db user_id community age_group)
  <-> exists b,
        In b (books db)
        /\ book = (b_book_id b, b_title b, b_author b, b_genre b)
        /\ owner_in_community db b community = true
        /\ b_age_group b = Some age_group
        /\ b_available b = 1
        /\ (forall rh, In rh (reading_history db) ->
              rh_user_id rh = user_id -> rh_book_id rh <> b_book_id b)
        /\ (forall br, In br (borrowing_records db) ->
              br_borrower_id br = user_id -> br_status br = "active" ->
              br_book_id br <> b_book_id b).
Proof.
  unfold fetch_available_books. rewrite in_map_iff.
  assert (Hread : forall b,
             in_ids (b_book_id b) (read_by db user_id) = false
             <-> forall rh, In rh (reading_history db) ->
                   rh_user_id rh = user_id -> rh_book_id rh <> b_book_id b).
  { intros b. rewrite in_ids_false. unfold read_by. rewrite in_map_iff.
    split.
    - intros Hnot rh Hin Hu Heq. apply Hnot. exists rh.
      split; [assumption|]. apply List.filter_In.
      split; [assumption|now apply Z.eqb_eq].
    - intros Hall (rh & Heq & Hrh). apply List.filter_In in Hrh as [Hin Hu].
      apply Z.eqb_eq in Hu. now apply (Hall rh). }
  assert (Hheld : forall b,
             in_ids (b_book_id b) (held_by db user_id) = false
             <-> forall br, In br (borrowing_records db) ->
                   br_borrower_id br = user_id -> br_status br = "active" ->
                   br_book_id br <> b_book_id b).
  { intros b. rewrite in_ids_false. unfold held_by. rewrite in_map_iff.
    split.
    - intros Hnot br Hin Hu Hst Heq. apply Hnot. exists br.
      split; [assumption|]. apply List.filter_In.
      split; [assumption|]. apply andb_true_iff.
      split; [now apply Z.eqb_eq|now apply String.eqb_eq].
    - intros Hall (br & Heq & Hbr). apply List.filter_In in Hbr as [Hin Hc].
      apply andb_true_iff in Hc as [Hu Hst].
      apply Z.eqb_eq in Hu. apply String.eqb_eq in Hst.
      now apply (Hall br). }
  assert (Hage : forall b,
             sql_eq_text (b_age_group b) (Some age_group) = true
             <-> b_age_group b = Some age_group).
  { intros b. unfold sql_eq_text. destruct (b_age_group b) as [g|].
    - rewrite String.eqb_eq. split; congruence.
    - split; discriminate. }
  split.
  - intros (b & <- & Hb). apply List.filter_In in Hb as [Hin Hc].
    rewrite !andb_true_iff, !negb_true_iff, Z.eqb_eq in Hc.
    destruct Hc as ((((Hown & Hag) & Hav) & Hr) & Hh).
    exists b. rewrite <- Hread, <- Hheld, <- Hage. auto 10.
  - intros (b & Hin & -> & Hown & Hag & Hav & Hr & Hh).
    exists b. split; [reflexivity|]. apply List.filter_In.
    split; [assumption|].
    rewrite !andb_true_iff, !negb_true_iff, Z.eqb_eq.
    rewrite Hread, Hheld, Hage. auto 10.
Qed.

(** X7. Every book that [recommend_books] returns is a catalogue row that
    is available, of the age bracket computed from the reader's age, owned
    by a user of the reader's community, that the reader has no history
    row for and does not hold in an active borrowing record. *)
Theorem recommendations_are_new_to_the_reader (db : database)
    (user_id limit : Z) (recs : list rec_t) (r : rec_t) :
  recommend_books db user_id limit = Returns recs ->
  In r recs ->
  exists reader age b owner,
    users db !! user_id = Some reader
    /\ u_age reader = Some age
    /\ In b (books db)
    /\ rec_book r = (b_book_id b, b_title b, b_author b, b_genre b)
    /\ b_available b = 1
    /\ b_age_group b = Some (age_group_of age)
    /\ users db !! b_owner_id b = Some owner
    /\ sql_eq_text (u_community_name owner) (u_community_name reader) = true
    /\ (forall rh, In rh (reading_history db) ->
          rh_user_id rh = user_id -> rh_book_id rh <> b_book_id b)
    /\ (forall br, In br (borrowing_records db) ->
          br_borrower_id br = user_id -> br_status br = "active" ->
          br_book_id br <> b_book_id b).
Proof.
  intros Hrecs Hin.
  destruct (recommend_books_rows db user_id limit recs r Hrecs Hin)
    as (reader & age & book & Hreader & Hage & Hbook & ->).
  apply fetch_available_books_In in Hbook
    as (b & Hb & -> & Hown & Hag & Hav & Hread & Hheld).
  unfold owner_in_community in Hown.
  destruct (users db !! b_owner_id b) as [owner|] eqn:Howner;
    [|discriminate].
  exists reader, age, b, owner.
  destruct (score_book_split db user_id (get_user_reading_profile db user_id)
              (b_book_id b, b_title b, b_author b, b_genre b))
    as (Hbook & _ & _).
  repeat split; assumption.
Qed.

Lemma recommendations_are_new_to_the_reader_witness :
  exists reader age b owner,
    users library_db !! 2 = Some reader
    /\ u_age reader = Some age
    /\ In b (books library_db)
    /\ rec_book (score_book library_db 2
                   (get_user_reading_profile library_db 2)
                   (5, "The Hobbit", Some "J.R.R. Tolkien", Some "Fantasy"))
       = (b_book_id b, b_title b, b_author b, b_genre b)
    /\ b_available b = 1
    /\ b_age_group b = Some (age_group_of age)
    /\ users library_db !! b_owner_id b = Some owner
    /\ sql_eq_text (u_community_name owner) (u_community_name reader) = true
    /\ (forall rh, In rh (reading_history library_db) ->
          rh_user_id rh = 2 -> rh_book_id rh <> b_book_id b)
    /\ (forall br, In br (borrowing_records library_db) ->
          br_borrower_id br = 2 -> br_status br = "active" ->
          br_book_id br <> b_book_id b).
Proof.
  eapply (recommendations_are_new_to_the_reader library_db 2 5);
    [reflexivity|].
  cbn. right. left. reflexivity.
Defined.

Lemma Qle_bool_total (a b : Q) : Qle_bool a b = true \/ Qle_bool b a = true.
Proof.
  rewrite !Qle_bool_iff. destruct (Qlt_le_dec a b) as [Hlt|Hle];
    [left; now apply Qlt_le_weak|now right].
Qed.

Lemma Qle_bool_trans (a b c : Q) :
  Qle_bool a b = true -> Qle_bool b c = true -> Qle_bool a c = true.
Proof. rewrite !Qle_bool_iff. apply Qle_trans. Qed.

Lemma py_slice_to_length {A} (limit : Z) (l : list A) :
  0 <= limit -> Z.of_nat (length (py_slice_to limit l)) <= limit.
Proof.
  intros Hpos. unfold py_slice_to.
  destruct (Z.ltb_spec limit 0); [lia|].
  pose proof (firstn_le_length (Z.to_nat limit) l).
  rewrite length_firstn. lia.
Qed.

Lemma firstn_short {A} (n : nat) (l : list A) :
  (length (firstn n l) < n)%nat -> firstn n l = l.
Proof.
  rewrite length_firstn. intros Hlt. apply firstn_all2. lia.
Qed.

(** X8. The shape of the result of [recommend_books]: an unknown reader
    gets the empty list; a user whose age is NULL (a parent) makes the call
    raise [TypeError]; otherwise the returned tuples are in descending
    order of score, at most [limit] of them when [limit >= 0], and a
    negative [limit] returns the complete ranking without its last
    [-limit] entries. *)
Theorem recommend_books_shape (db : database) (user_id limit : Z) :
  (users db !! user_id = None ->
   recommend_books db user_id limit = Returns [])
  /\ (forall reader,
        users db !! user_id = Some reader -> u_age reader = None ->
        recommend_books db user_id limit = Raises TypeError)
  /\ (forall recs,
        recommend_books db user_id limit = Returns recs ->
        StronglySorted (fun r1 r2 => (rec_score r2 <= rec_score r1)%Q) recs
        /\ (0 <= limit -> Z.of_nat (length recs) <= limit)
        /\ (limit < 0 ->
            forall big full,
              recommend_books db user_id big = Returns full ->
              Z.of_nat (length full) < big ->
              recs = firstn (Z.to_nat (Z.of_nat (length full) + limit)) full)).
Proof.
  rewrite recommend_books_unfold. split; [|split].
  - now intros ->.
  - now intros reader -> ->.
  - intros recs Hrecs.
    destruct (users db !! user_id) as [reader|] eqn:Hreader.
    2:{ injection Hrecs as <-. split; [constructor|].
        split; [cbn; lia|]. intros _ big full Hfull _.
        rewrite recommend_books_unfold, Hreader in Hfull.
        injection Hfull as <-. now rewrite firstn_nil. }
    destruct (u_age reader) as [age|] eqn:Hage; [|discriminate].
    injection Hrecs as <-.
    set (ranking := sort_desc Qle_bool rec_score
                      (map (score_book db user_id
                              (get_user_reading_profile db user_id))
                           (fetch_available_books db user_id
                              (u_community_name reader) (age_group_of age)))).
    split; [|split].
    + destruct (py_slice_to_prefix limit ranking) as [n ->].
      apply firstn_sorted.
      eapply StronglySorted_weaken;
        [|apply (sort_desc_sorted Qle_bool rec_score
                   Qle_bool_total Qle_bool_trans)].
      intros x y Hxy. now apply Qle_bool_iff.
    + apply py_slice_to_length.
    + intros Hneg big full Hfull Hbig.
      rewrite recommend_books_unfold, Hreader, Hage in Hfull.
      injection Hfull as <-. fold ranking in Hbig |- *.
      assert (Hall : py_slice_to big ranking = ranking).
      { unfold py_slice_to in *. destruct (Z.ltb_spec big 0); [lia|].
        apply firstn_short. lia. }
      rewrite Hall. unfold py_slice_to.
      destruct (Z.ltb_spec limit 0); [reflexivity|lia].
Qed.

Section SortStability.
Context {A K : Type} (leb eqb : K -> K -> bool) (key : A -> K).
Hypothesis eqb_leb :
  forall a b q, eqb a q = true -> eqb b q = true -> leb a b = true.

(** The elements of one key class keep their order through the sort. *)
Lemma insert_desc_class (q : K) (x : A) (l : list A) :
  List.filter (fun z => eqb (key z) q) (insert_desc leb key x l)
  = List.filter (fun z => eqb (key z) q) (x :: l).
Proof.
  induction l as [|y l IH]; [reflexivity|].
  cbn [insert_desc]. destruct (leb (key y) (key x)) eqn:Hyx; [reflexivity|].
  cbn [List.filter] in *. rewrite IH.
  destruct (eqb (key x) q) eqn:Hx, (eqb (key y) q) eqn:Hy; try reflexivity.
  rewrite (eqb_leb _ _ _ Hy Hx) in Hyx. discriminate.
Qed.

Lemma sort_desc_class (q : K) (l : list A) :
  List.filter (fun z => eqb (key z) q) (sort_desc leb key l)
  = List.filter (fun z => eqb (key z) q) l.
Proof.
  unfold sort_desc. induction l as [|x l IH]; [reflexivity|].
  cbn [fold_right]. rewrite insert_desc_class. cbn [List.filter].
  now rewrite IH.
Qed.

End SortStability.

Lemma Qeq_bool_Qle_bool (a b q : Q) :
  Qeq_bool a q = true -> Qeq_bool b q = true -> Qle_bool a b = true.
Proof.
  intros Ha Hb. apply Qeq_bool_eq in Ha, Hb. apply Qle_bool_iff.
  rewrite Ha, Hb. apply Qle_refl.
Qed.

(** X9. The result of [recommend_books] is the bounded prefix of a
    ranking that holds every candidate once and in which the candidates
    of equal score stand in the order in which the candidate query
    returned them: the sort breaks no tie. *)
Theorem equal_scores_keep_the_pool_order (db : database)
    (user_id limit : Z) (recs : list rec_t) :
  recommend_books db user_id limit = Returns recs ->
  users db !! user_id = None
  \/ exists reader age ranking,
       users db !! user_id = Some reader
       /\ u_age reader = Some age
       /\ recs = py_slice_to limit ranking
       /\ ranking ≡ₚ map (score_book db user_id
                            (get_user_reading_profile db user_id))
                         (fetch_available_books db user_id
                            (u_community_name reader) (age_group_of age))
       /\ forall q,
            List.filter (fun r => Qeq_bool (rec_score r) q) ranking
            = List.filter (fun r => Qeq_bool (rec_score r) q)
                (map (score_book db user_id
                        (get_user_reading_profile db user_id))
                     (fetch_available_books db user_id
                        (u_community_name reader) (age_group_of age))).
Proof.
  rewrite recommend_books_unfold.
  destruct (users db !! user_id) as [reader|]; [|now left].
  destruct (u_age reader) as [age|] eqn:Hage; [|discriminate].
  intros [= <-]. right. exists reader, age. eexists.
  split; [reflexivity|]. split; [exact Hage|]. split; [reflexivity|].
  split; [apply sort_desc_perm|].
  intros q. apply sort_desc_class. apply Qeq_bool_Qle_bool.
Qed.

Lemma equal_scores_keep_the_pool_order_witness :
  users library_db !! 2 = None
  \/ exists reader age ranking,
       users library_db !! 2 = Some reader
       /\ u_age reader = Some age
       /\ py_slice_to 5
            (sort_desc Qle_bool rec_score
               (map (score_book library_db 2
                       (get_user_reading_profile library_db 2))
                    (fetch_available_books library_db 2
                       (Some "Green Valley") (age_group_of 10))))
          = py_slice_to 5 ranking
       /\ ranking ≡ₚ map (score_book library_db 2
                            (get_user_reading_profile library_db 2))
                         (fetch_available_books library_db 2
                            (u_community_name reader) (age_group_of age))
       /\ forall q,
            List.filter (fun r => Qeq_bool (rec_score r) q) ranking
            = List.filter (fun r => Qeq_bool (rec_score r) q)
                (map (score_book library_db 2
                        (get_user_reading_profile library_db 2))
                     (fetch_available_books library_db 2
                        (u_community_name reader) (age_group_of age))).
Proof.
  apply (equal_scores_keep_the_pool_order library_db 2 5). reflexivity.
Defined.

Lemma fetch_history_none (db : database) (user_id : Z) :
  (forall rh, In rh (reading_history db) -> rh_user_id rh <> user_id) ->
  fetch_history db user_id = [].
Proof.
  unfold fetch_history. induction (reading_history db) as [|rh l IH];
    intros Hnone; [reflexivity|].
  cbn [flat_map]. rewrite IH by (intros; apply Hnone; now right).
  destruct (Z.eqb_spec (rh_user_id rh) user_id) as [Heq|Hne];
    [|reflexivity].
  exfalso. apply (Hnone rh); [now left|assumption].
Qed.

Lemma fetch_similar_users_none (db : database) (user_id : Z) :
  (forall rh, In rh (reading_history db) -> rh_user_id rh <> user_id) ->
  fetch_similar_users db user_id = 0.
Proof.
  intros Hnone. unfold fetch_similar_users.
  rewrite (List.filter_ext_in _ (fun _ => false)).
  - now rewrite List.filter_false.
  - intros [rh1 rh2] Hin. apply in_prod_iff in Hin as [Hin1 _].
    destruct (common_pair user_id (rh1, rh2)) eqn:Hpair; [|reflexivity].
    apply common_pair_true in Hpair as (_ & Hu & _).
    exfalso. now apply (Hnone rh1).
Qed.

(** X10. Cold start. For a reader without any row in the reading
    history, on ratings of the data model, the score of every returned
    book is the community average of the book alone: the profile and the
    peer term add nothing, and a book that nobody has rated scores 3.0. *)
Theorem cold_start_scores (db : database) (user_id limit : Z)
    (recs : list rec_t) :
  (forall rh, In rh (reading_history db) -> rh_user_id rh <> user_id) ->
  ratings_in_range db ->
  recommend_books db user_id limit = Returns recs ->
  forall book_id title author genre score,
    In (book_id, title, author, genre, score) recs ->
    (score == community_avg_rating db book_id)%Q
    /\ (ratings_of db book_id = [] -> (score == 3.0)%Q).
Proof.
  intros Hnone Hrange Hrecs book_id title author genre score Hin.
  destruct (recommend_books_rows db user_id limit recs _ Hrecs Hin)
    as (reader & age & [[[id t] a] g] & _ & _ & _ & Heq).
  pose proof (score_book_formula db user_id id t a g Hrange) as Hscore.
  rewrite <- Heq in Hscore. unfold score_book in Heq. cbn in Heq.
  injection Heq as -> -> -> -> _. cbn [rec_score snd] in Hscore.
  unfold genre_weight, author_weight, peer_affinity_bonus in Hscore.
  rewrite fetch_history_none, fetch_similar_users_none in Hscore
    by assumption.
  cbn in Hscore.
  assert (Havg : (score == community_avg_rating db id)%Q).
  { rewrite Hscore. generalize (community_avg_rating db id). intros q.
    change (inject_Z 0) with 0%Q. ring. }
  split; [exact Havg|].
  intros Hunrated. rewrite Havg. unfold community_avg_rating.
  now rewrite Hunrated.
Qed.

Lemma cold_start_scores_witness :
  exists recs,
    recommend_books newcomer_db 4 5 = Returns recs
    /\ forall score,
         In (4, "Matilda", Some "Roald Dahl", Some "Humor", score) recs ->
         (score == community_avg_rating newcomer_db 4)%Q
         /\ (ratings_of newcomer_db 4 = [] -> (score == 3.0)%Q).
Proof.
  eexists. split; [reflexivity|]. intros score.
  apply (cold_start_scores newcomer_db 4 5).
  - intros rh Hin. cbn in Hin.
    repeat (destruct Hin as [<-|Hin]; [cbn; lia|]). destruct Hin.
  - exact library_db_in_range.
  - reflexivity.
Defined.

(** * Properties of borrowing and returning *)

(** Looking a book up after an update of rows that keeps the ids. *)
Lemma find_book_map (g : books_row -> books_row) (book_id : Z)
    (l : list books_row) :
  (forall b, b_book_id (g b) = b_book_id b) ->
  List.find (fun b => b_book_id b =? book_id) (map g l)
  = g <$> List.find (fun b => b_book_id b =? book_id) l.
Proof.
  intros Hid. induction l as [|b l IH]; [reflexivity|].
  cbn [map List.find]. rewrite Hid.
  destruct (b_book_id b =? book_id); [reflexivity|assumption].
Qed.

Lemma availability_set (db : database) (flag book_id book_id' : Z)
    (l : list books_row) :
  b_available
    <$> List.find (fun b => b_book_id b =? book_id')
          (map (fun b => if b_book_id b =? book_id
                         then set_available flag b else b) l)
  = if book_id' =? book_id
    then (fun _ => flag)
           <$> List.find (fun b => b_book_id b =? book_id') l
    else b_available <$> List.find (fun b => b_book_id b =? book_id') l.
Proof.
  rewrite find_book_map by (intros b; now destruct (b_book_id b =? book_id)).
  destruct (List.find (fun b => b_book_id b =? book_id') l) as [b|] eqn:Hfind;
    [|now destruct (book_id' =? book_id)].
  apply find_some in Hfind as [_ Hid]. apply Z.eqb_eq in Hid. subst book_id'.
  cbn. now destruct (b_book_id b =? book_id).
Qed.

(** The three ways [borrow_book] ends. *)
Lemma borrow_book_missing (book_id borrower_id days : Z) (db : database) :
  availability db book_id = None ->
  borrow_book book_id borrower_id days db = ((false, "Book not found"), db).
Proof.
  unfold borrow_book, availability, bind, get_db, ret.
  now destruct (List.find _ _).
Qed.

Lemma borrow_book_unavailable (book_id borrower_id days : Z) (db : database) :
  availability db book_id = Some 0 ->
  borrow_book book_id borrower_id days db
  = ((false, "Book is currently borrowed"), db).
Proof.
  unfold borrow_book, availability, bind, get_db, ret.
  destruct (List.find _ _) as [b|]; [|discriminate].
  intros [= ->]. reflexivity.
Qed.

Lemma borrow_book_available (book_id borrower_id days flag : Z)
    (db : database) :
  availability db book_id = Some flag -> flag <> 0 ->
  borrow_book book_id borrower_id days db
  = ((true, "Book borrowed successfully"), borrowed db book_id borrower_id).
Proof.
  unfold borrow_book, availability, bind, get_db, put_db, ret.
  destruct (List.find _ _) as [b|]; [|discriminate].
  intros [= <-] Hnz. now destruct (Z.eqb_spec (b_available b) 0).
Qed.

Lemma availability_borrowed (db : database) (book_id borrower_id book_id' : Z) :
  availability (borrowed db book_id borrower_id) book_id'
  = if book_id' =? book_id
    then (fun _ => 0) <$> availability db book_id'
    else availability db book_id'.
Proof.
  unfold availability, borrowed. cbn [books]. rewrite (availability_set db).
  destruct (book_id' =? book_id); [|reflexivity].
  now destruct (List.find _ _).
Qed.

Lemma holds_borrowed (db : database) (book_id borrower_id : Z) :
  holds (borrowed db book_id borrower_id) borrower_id book_id.
Proof.
  eexists. split; [apply in_or_app; right; left; reflexivity|].
  now repeat split.
Qed.

(** X11. No double borrowing through [borrow_book]: a call that fails
    changes nothing; after a call that succeeds the book's flag is 0, the
    borrower holds the book, and every further [borrow_book] of that book,
    by anyone, fails with "Book is currently borrowed" and changes
    nothing. *)
Theorem borrowed_book_cannot_be_borrowed (db : database)
    (book_id borrower_id days : Z) :
  let result := fst (borrow_book book_id borrower_id days db) in
  let db' := snd (borrow_book book_id borrower_id days db) in
  (fst result = false -> db' = db)
  /\ (fst result = true ->
      (exists flag, availability db book_id = Some flag /\ flag <> 0)
      /\ availability db' book_id = Some 0
      /\ holds db' borrower_id book_id
      /\ forall other days',
           borrow_book book_id other days' db'
           = ((false, "Book is currently borrowed"), db')).
Proof.
  cbv zeta.
  destruct (availability db book_id) as [flag|] eqn:Havail.
  - destruct (Z.eq_dec flag 0) as [->|Hnz].
    + rewrite borrow_book_unavailable by assumption. cbn.
      split; [reflexivity|discriminate].
    + rewrite (borrow_book_available _ _ _ flag) by assumption. cbn [fst snd].
      split; [discriminate|]. intros _.
      assert (Hzero : availability (borrowed db book_id borrower_id) book_id
                      = Some 0)
        by now rewrite availability_borrowed, Z.eqb_refl, Havail.
      split; [eauto|]. split; [exact Hzero|].
      split; [apply holds_borrowed|].
      intros other days'. now apply borrow_book_unavailable.
  - rewrite borrow_book_missing by assumption. cbn.
    split; [reflexivity|discriminate].
Qed.













(** ** Registration, the leaderboard and the stats view *)

Lemma register_child_run (db : database) (parent_id child_id : Z)
    (age : option Z) (parent : users_row) :
  users db !! parent_id = Some parent ->
  user_stats db !! child_id = None ->
  register_child parent_id age child_id db
  = (Some child_id,
     {| users :=
          <[child_id := {| u_community_name := u_community_name parent;
                           u_user_type := Some "child";
                           u_age := age |}]> (users db);
        books := books db;
        borrowing_records := borrowing_records db;
        reading_history := reading_history db;
        user_stats := <[child_id := fresh_stats]> (user_stats db) |}).
Proof.
  intros Hparent Hfresh.
  unfold register_child, bind, get_db, put_db, ret.
  rewrite Hparent, Hfresh. reflexivity.
Qed.

(** X15. A child registered under an existing parent, with an id that has
    no stats row yet, gets the parent's community, the type child and the
    onboarding stats row, no other user or stats row being touched; from
    then on, whatever completions are recorded, the child's row stays
    consistent, its badges follow its totals and its number of books is
    the number of its completions. *)
Theorem registered_child_is_onboarded (db : database)
    (parent_id child_id : Z) (age : option Z) (parent : users_row)
    (events : list (Z * Z)) :
  users db !! parent_id = Some parent ->
  user_stats db !! child_id = None ->
  let db1 := snd (register_child parent_id age child_id db) in
  let db2 := snd (record_completions events db1) in
  fst (register_child parent_id age child_id db) = Some child_id
  /\ users db1 !! child_id
     = Some {| u_community_name := u_community_name parent;
               u_user_type := Some "child";
               u_age := age |}
  /\ user_stats db1 !! child_id = Some fresh_stats
  /\ (forall other, other <> child_id ->
        users db1 !! other = users db !! other
        /\ user_stats db1 !! other = user_stats db !! other)
  /\ exists stats,
       user_stats db2 !! child_id = Some stats
       /\ stats_invariant stats
       /\ badges_invariant stats
       /\ total_books_read stats = completions_of child_id events.
Proof.
  intros Hparent Hfresh db1 db2. subst db2 db1.
  rewrite (register_child_run db parent_id child_id age parent Hparent Hfresh).
  cbn [fst snd].
  split; [reflexivity|].
  split; [cbn [users]; apply lookup_insert_eq|].
  split; [cbn [user_stats]; apply lookup_insert_eq|].
  split.
  - intros other Hother. cbn [users user_stats].
    split; apply lookup_insert_ne; congruence.
  - exists (stats_after child_id events fresh_stats).
    rewrite record_completions_row. cbn [user_stats].
    rewrite lookup_insert_eq. cbn.
    split; [reflexivity|].
    split; [apply stats_after_invariant, fresh_stats_invariant|].
    split; [apply stats_after_badges, fresh_stats_badges|].
    rewrite stats_after_books. reflexivity.
Qed.

Lemma registered_child_is_onboarded_witness :
  let db1 := snd (register_child 1 (Some 9) 4 library_db) in
  let db2 := snd (record_completions [(4, 10); (4, 11)] db1) in
  fst (register_child 1 (Some 9) 4 library_db) = Some 4
  /\ users db1 !! 4
     = Some {| u_community_name := Some "Green Valley";
               u_user_type := Some "child";
               u_age := Some 9 |}
  /\ user_stats db1 !! 4 = Some fresh_stats
  /\ (forall other, other <> 4 ->
        users db1 !! other = users library_db !! other
        /\ user_stats db1 !! other = user_stats library_db !! other)
  /\ exists stats,
       user_stats db2 !! 4 = Some stats
       /\ stats_invariant stats
       /\ badges_invariant stats
       /\ total_books_read stats = completions_of 4 [(4, 10); (4, 11)].
Proof.
  apply (registered_child_is_onboarded library_db 1 4 (Some 9)
           {| u_community_name := Some "Green Valley";
              u_user_type := Some "parent"; u_age := None |}
           [(4, 10); (4, 11)]);
    reflexivity.
Defined.

(** The entries of a list sorted by a relation are related in the order
    of their positions. *)
Lemma StronglySorted_lookup {A} (R : A -> A -> Prop) (l : list A) :
  StronglySorted R l ->
  forall (i j : nat) (x y : A),
    l !! i = Some x -> l !! j = Some y -> (i < j)%nat -> R x y.
Proof.
  induction 1 as [|a l Hs IH Hall]; intros i j x y Hi Hj Hlt.
  - discriminate.
  - destruct j as [|j]; [lia|]. cbn in Hj.
    destruct i as [|i]; cbn in Hi.
    + injection Hi as <-.
      rewrite List.Forall_forall in Hall. apply Hall.
      apply list_elem_of_In. eapply list_elem_of_lookup_2. exact Hj.
    + apply (IH i j); [assumption|assumption|lia].
Qed.

Lemma sql_limit_length {A} (limit : Z) (l : list A) :
  0 <= limit -> Z.of_nat (length (sql_limit limit l)) <= limit.
Proof.
  intros Hlimit. unfold sql_limit.
  destruct (limit <? 0) eqn:Hneg; [lia|].
  rewrite length_firstn. lia.
Qed.

Lemma sql_limit_all {A} (limit : Z) (l : list A) :
  limit < 0 \/ Z.of_nat (length l) <= limit -> sql_limit limit l = l.
Proof.
  intros Hlimit. unfold sql_limit.
  destruct (limit <? 0) eqn:Hneg; [reflexivity|].
  apply firstn_all2. lia.
Qed.

Lemma Zleb_total (a b : Z) : Z.leb a b = true \/ Z.leb b a = true.
Proof. rewrite !Z.leb_le. lia. Qed.

Lemma Zleb_trans (a b c : Z) :
  Z.leb a b = true -> Z.leb b c = true -> Z.leb a c = true.
Proof. rewrite !Z.leb_le. lia. Qed.

(** The rows of the leaderboard query. *)
Lemma board_row_Some (user_name : Z -> string) (db : database)
    (community_name : option string) (user_id : Z) (us : stats_row)
    (r : board_t) :
  board_row user_name db community_name (user_id, us) = Some r
  <-> exists u,
        users db !! user_id = Some u
        /\ (exists c, community_name = Some c)
        /\ u_community_name u = community_name
        /\ u_user_type u = Some "child"
        /\ r = (user_name user_id, total_books_read us, total_points us,
                current_streak us, longest_streak us).
Proof.
  unfold board_row. split.
  - destruct (users db !! user_id) as [u|]; [|discriminate].
    destruct (sql_eq_text (u_community_name u) community_name) eqn:Hc;
      [|discriminate].
    destruct (sql_eq_text (u_user_type u) (Some "child")) eqn:Ht;
      [|discriminate].
    cbn. intros [= <-]. exists u.
    unfold sql_eq_text in Hc, Ht.
    destruct (u_community_name u) as [c|]; [|discriminate].
    destruct community_name as [c'|]; [|discriminate].
    destruct (u_user_type u) as [t|]; [|discriminate].
    apply String.eqb_eq in Hc, Ht. subst.
    repeat split; eauto.
  - intros (u & -> & (c & ->) & Hc & Ht & ->).
    rewrite Hc, Ht. cbn. rewrite !String.eqb_refl. reflexivity.
Qed.

Lemma get_leaderboard_full (user_name : Z -> string) (db : database)
    (community_name : option string) (limit : Z) :
  exists full,
    get_leaderboard user_name db community_name limit = sql_limit limit full
    /\ full ≡ₚ omap (board_row user_name db community_name)
                    (map_to_list (user_stats db))
    /\ StronglySorted (fun r1 r2 => board_points r2 <= board_points r1) full.
Proof.
  eexists. split; [reflexivity|]. split.
  - apply sort_desc_perm.
  - eapply StronglySorted_weaken;
      [|apply (sort_desc_sorted Z.leb board_points Zleb_total Zleb_trans)].
    intros x y Hxy. cbv beta in Hxy. apply Z.leb_le in Hxy. exact Hxy.
Qed.

Lemma omap_length_le {A B} (f : A -> option B) (l : list A) :
  (length (omap f l) <= length l)%nat.
Proof.
  induction l as [|a l IH]; [cbn; lia|].
  cbn. destruct (f a); cbn; lia.
Qed.

Lemma get_leaderboard_In (user_name : Z -> string) (db : database)
    (community_name : option string) (limit : Z) (r : board_t) :
  In r (get_leaderboard user_name db community_name limit) ->
  exists user_id us,
    user_stats db !! user_id = Some us
    /\ board_row user_name db community_name (user_id, us) = Some r.
Proof.
  destruct (get_leaderboard_full user_name db community_name limit)
    as (full & -> & Hperm & _).
  destruct (sql_limit_prefix limit full) as [n ->].
  intros Hin. apply firstn_incl in Hin.
  apply list_elem_of_In in Hin. rewrite Hperm in Hin.
  apply list_elem_of_omap in Hin as ([user_id us] & Hentry & Hrow).
  apply elem_of_map_to_list in Hentry. eauto.
Qed.

(** X16. The leaderboard reply lists children of the requested community
    who have a stats row, with the figures of that row; the entry at
    position i carries rank i + 1, an entry of a higher rank number never
    has more points, and there are at most [limit] entries.  When the limit
    is negative or at least the number of stats rows, every child of the
    community with a stats row is listed. *)
Theorem leaderboard_ranks_by_points (user_name : Z -> string)
    (db : database) (community_name : option string) (limit : Z) :
  let board := Handlers.get_leaderboard user_name db community_name limit in
  (forall i e, board !! i = Some e -> Handlers.rank e = Z.of_nat i + 1)
  /\ (forall e1 e2, In e1 board -> In e2 board ->
        Handlers.rank e1 < Handlers.rank e2 ->
        Handlers.total_points e2 <= Handlers.total_points e1)
  /\ (0 <= limit -> Z.of_nat (length board) <= limit)
  /\ (forall e, In e board ->
        exists user_id u us,
          users db !! user_id = Some u
          /\ user_stats db !! user_id = Some us
          /\ u_community_name u = community_name
          /\ u_user_type u = Some "child"
          /\ Handlers.name e = user_name user_id
          /\ Handlers.books_read e = total_books_read us
          /\ Handlers.total_points e = total_points us
          /\ Handlers.current_streak e = current_streak us
          /\ Handlers.longest_streak e = longest_streak us)
  /\ (limit < 0 \/ Z.of_nat (size (user_stats db)) <= limit ->
      forall user_id u us c,
        users db !! user_id = Some u ->
        user_stats db !! user_id = Some us ->
        community_name = Some c ->
        u_community_name u = Some c ->
        u_user_type u = Some "child" ->
        exists e,
          In e board
          /\ Handlers.name e = user_name user_id
          /\ Handlers.books_read e = total_books_read us
          /\ Handlers.total_points e = total_points us
          /\ Handlers.current_streak e = current_streak us
          /\ Handlers.longest_streak e = longest_streak us).
Proof.
  intros board. subst board. unfold Handlers.get_leaderboard.
  set (entry := fun (idx : nat) (r : board_t) =>
                  let '(n, b, p, s, l) := r in
                  {| Handlers.rank := Z.of_nat idx + 1; Handlers.name := n;
                     Handlers.books_read := b; Handlers.total_points := p;
                     Handlers.current_streak := s;
                     Handlers.longest_streak := l |}).
  assert (Hrank : forall i r, Handlers.rank (entry i r) = Z.of_nat i + 1).
  { intros i [[[[n b] p] s] l]. reflexivity. }
  assert (Hpoints : forall i r,
             Handlers.total_points (entry i r) = board_points r).
  { intros i [[[[n b] p] s] l]. reflexivity. }
  split; [|split; [|split; [|split]]].
  - intros i e Hi. apply list_lookup_imap_Some in Hi as (r & _ & ->).
    apply Hrank.
  - intros e1 e2 He1 He2 Hlt.
    apply list_elem_of_In, elem_of_lookup_imap in He1 as (i & r1 & -> & Hi).
    apply list_elem_of_In, elem_of_lookup_imap in He2 as (j & r2 & -> & Hj).
    rewrite !Hrank in Hlt. rewrite !Hpoints.
    destruct (get_leaderboard_full user_name db community_name limit)
      as (full & Heq & _ & Hsorted).
    rewrite Heq in Hi, Hj.
    destruct (sql_limit_prefix limit full) as [n Hn]. rewrite Hn in Hi, Hj.
    apply (firstn_sorted _ n) in Hsorted.
    apply (StronglySorted_lookup _ _ Hsorted i j r1 r2 Hi Hj). lia.
  - intros Hlimit. rewrite length_imap. unfold get_leaderboard.
    apply sql_limit_length, Hlimit.
  - intros e He.
    apply list_elem_of_In, elem_of_lookup_imap in He as (i & r & -> & Hi).
    apply list_elem_of_lookup_2, list_elem_of_In in Hi.
    apply get_leaderboard_In in Hi as (user_id & us & Hus & Hrow).
    apply board_row_Some in Hrow as (u & Hu & _ & Hc & Ht & ->).
    exists user_id, u, us. cbn. repeat split; assumption.
  - intros Hlimit user_id u us c Hu Hus -> Hc Ht.
    destruct (get_leaderboard_full user_name db (Some c) limit)
      as (full & Heq & Hperm & _).
    assert (Hin : In (user_name user_id, total_books_read us,
                      total_points us, current_streak us, longest_streak us)
                     (get_leaderboard user_name db (Some c) limit)).
    { rewrite Heq, sql_limit_all.
      - apply list_elem_of_In. rewrite Hperm.
        apply list_elem_of_omap. exists (user_id, us). split.
        + apply elem_of_map_to_list. exact Hus.
        + apply board_row_Some. exists u. repeat split; eauto.
      - destruct Hlimit as [Hneg|Hsize]; [now left|right].
        rewrite Hperm.
        pose proof (omap_length_le (board_row user_name db (Some c))
                      (map_to_list (user_stats db))) as Hle.
        rewrite length_map_to_list in Hle. lia. }
    apply list_elem_of_In, list_elem_of_lookup_1 in Hin as [i Hi].
    eexists. split.
    + apply list_elem_of_In. eapply elem_of_lookup_imap_2. exact Hi.
    + cbn. repeat split; reflexivity.
Qed.

(** Every badge that the code can award has an entry in the catalogue. *)
Lemma unlocked_in_catalogue (total_books streak : Z) (b : string) :
  unlocked total_books streak b -> is_Some (badge_catalogue b).
Proof.
  intros [[-> _]|[[-> _]|[[-> _]|[[-> _]|[[-> _]|[-> _]]]]]];
    cbn; eexists; reflexivity.
Qed.

Lemma omap_catalogue (keys : list string) :
  (forall b, In b keys -> is_Some (badge_catalogue b)) ->
  Forall2 (fun key info => badge_catalogue key = Some info)
          keys (omap badge_catalogue keys).
Proof.
  induction keys as [|k keys IH]; intros Hall; [constructor|].
  destruct (Hall k (or_introl eq_refl)) as [info Hinfo].
  cbn [omap list_omap]. rewrite Hinfo. constructor; [assumption|].
  apply IH. intros b Hb. apply Hall. now right.
Qed.

(** X17. What [get_user_stats] shows after an update is what the update
    returned: for a reader with a user row and a stats row, the view read
    after [update_reading_stats] carries the totals, streaks and books of
    the returned dictionary and today's date, and the badges it shows are
    the catalogue entries of the stored keys that have one, in order. *)
Theorem stats_view_after_update (user_name : Z -> string) (db : database)
    (user_id today : Z) (u : users_row) (stats : stats_row) :
  users db !! user_id = Some u ->
  user_stats db !! user_id = Some stats ->
  exists delta db' view,
    update_reading_stats user_id today db = (Some delta, db')
    /\ get_user_stats user_name db' user_id = Some view
    /\ v_user_id view = user_id
    /\ v_name view = user_name user_id
    /\ v_total_books_read view = d_total_books delta
    /\ v_total_books_read view = total_books_read stats + 1
    /\ v_current_streak view = d_current_streak delta
    /\ v_longest_streak view = d_longest_streak delta
    /\ v_total_points view = d_total_points delta
    /\ v_total_points view = total_points stats + d_points_earned delta
    /\ v_last_activity_date view = Some today
    /\ v_badges view
       = (omap badge_catalogue (badges stats)
          ++ omap badge_catalogue (d_new_badges delta))%list.
Proof.
  intros Hu Hstats.
  unfold update_reading_stats, bind, get_db, put_db, ret.
  rewrite Hstats. cbv zeta.
  eexists _, _, _. split; [reflexivity|].
  unfold get_user_stats. cbn [user_stats users].
  rewrite lookup_insert_eq, Hu.
  split; [reflexivity|]. cbn.
  repeat (split; [reflexivity|]).
  destruct (extends_newly_earned (badges stats)
              (_check_badges user_id (total_books_read stats + 1)
                 (step_streak (last_activity_date stats) today
                    (current_streak stats)) (badges stats))
              (check_badges_extends _ _ _ _)) as [Heq _].
  rewrite Heq at 1. apply omap_app.
Qed.

Lemma stats_view_after_update_witness :
  exists delta db' view,
    update_reading_stats 2 101 library_db = (Some delta, db')
    /\ get_user_stats (fun _ => "Alice") db' 2 = Some view
    /\ v_user_id view = 2
    /\ v_name view = "Alice"
    /\ v_total_books_read view = d_total_books delta
    /\ v_total_books_read view = total_books_read fresh_stats + 1
    /\ v_current_streak view = d_current_streak delta
    /\ v_longest_streak view = d_longest_streak delta
    /\ v_total_points view = d_total_points delta
    /\ v_total_points view = total_points fresh_stats + d_points_earned delta
    /\ v_last_activity_date view = Some 101
    /\ v_badges view
       = (omap badge_catalogue (badges fresh_stats)
          ++ omap badge_catalogue (d_new_badges delta))%list.
Proof.
  apply (stats_view_after_update (fun _ => "Alice") library_db 2 101
           {| u_community_name := Some "Green Valley";
              u_user_type := Some "child"; u_age := Some 10 |}
           fresh_stats);
    reflexivity.
Defined.

(** X18. The announcement of new badges cannot fail: every key that an
    update reports as newly earned has an entry in the badge catalogue, so
    the lookup [self.badges[badge_key]] of the printing loop finds it; the
    key was not in the list before, its threshold is reached by the new
    totals, and no key is reported twice. *)
Theorem new_badges_are_in_the_catalogue (db : database)
    (user_id today : Z) (stats : stats_row) :
  user_stats db !! user_id = Some stats ->
  exists delta db',
    update_reading_stats user_id today db = (Some delta, db')
    /\ List.NoDup (d_new_badges delta)
    /\ forall b, In b (d_new_badges delta) ->
         is_Some (badge_catalogue b)
         /\ ~ In b (badges stats)
         /\ unlocked (d_total_books delta) (d_current_streak delta) b.
Proof.
  intros Hstats.
  unfold update_reading_stats, bind, get_db, put_db, ret.
  rewrite Hstats. cbv zeta.
  eexists _, _. split; [reflexivity|].
  cbn [d_new_badges d_total_books d_current_streak].
  set (total := total_books_read stats + 1).
  set (streak := step_streak (last_activity_date stats) today
                   (current_streak stats)).
  destruct (extends_newly_earned (badges stats)
              (_check_badges user_id total streak (badges stats))
              (check_badges_extends _ _ _ _)) as [_ Hnd].
  split; [exact Hnd|].
  intros b Hb. apply List.filter_In in Hb as [Hin Hnew].
  assert (Hold : ~ In b (badges stats)).
  { intros Hold. apply negb_true_iff in Hnew.
    unfold py_in in Hnew.
    assert (Htrue : existsb (String.eqb b) (badges stats) = true).
    { apply existsb_exists. exists b. split; [assumption|].
      apply String.eqb_refl. }
    congruence. }
  apply check_badges_In in Hin as [Hin|Hin]; [contradiction|].
  split; [eapply unlocked_in_catalogue; exact Hin|].
  split; assumption.
Qed.

Lemma new_badges_are_in_the_catalogue_witness :
  exists delta db',
    update_reading_stats 2 101 library_db = (Some delta, db')
    /\ List.NoDup (d_new_badges delta)
    /\ forall b, In b (d_new_badges delta) ->
         is_Some (badge_catalogue b)
         /\ ~ In b (badges fresh_stats)
         /\ unlocked (d_total_books delta) (d_current_streak delta) b.
Proof.
  apply (new_badges_are_in_the_catalogue library_db 2 101 fresh_stats).
  reflexivity.
Defined.

(** X19. No badge of a reader who started from the onboarding row is
    dropped by the stats view: after any sequence of completions the view
    shows, in the stored order, one catalogue entry for each stored badge
    key. *)
Theorem onboarded_badges_are_all_shown (user_name : Z -> string)
    (db : database) (user_id : Z) (u : users_row) (events : list (Z * Z)) :
  users db !! user_id = Some u ->
  user_stats db !! user_id = Some fresh_stats ->
  let db' := snd (record_completions events db) in
  exists stats view,
    user_stats db' !! user_id = Some stats
    /\ get_user_stats user_name db' user_id = Some view
    /\ Forall2 (fun key info => badge_catalogue key = Some info)
               (badges stats) (v_badges view).
Proof.
  intros Hu Hstats db'. subst db'.
  pose proof (record_completions_row events db user_id) as Hrow.
  rewrite Hstats in Hrow. cbn in Hrow.
  destruct (record_completions_frame_tables events db) as (Husers & _).
  unfold get_user_stats. rewrite Hrow, Husers, Hu.
  eexists _, _. split; [reflexivity|]. split; [reflexivity|].
  cbn [v_badges]. apply omap_catalogue.
  intros b Hb.
  destruct (stats_after_badges user_id events fresh_stats fresh_stats_badges)
    as [_ Hin].
  apply Hin in Hb. eapply unlocked_in_catalogue. exact Hb.
Qed.

Lemma onboarded_badges_are_all_shown_witness :
  let db' := snd (record_completions (daily 2 100 7) library_db) in
  exists stats view,
    user_stats db' !! 2 = Some stats
    /\ get_user_stats (fun _ => "Alice") db' 2 = Some view
    /\ Forall2 (fun key info => badge_catalogue key = Some info)
               (badges stats) (v_badges view).
Proof.
  apply (onboarded_badges_are_all_shown (fun _ => "Alice") library_db 2
           {| u_community_name := Some "Green Valley";
              u_user_type := Some "child"; u_age := Some 10 |}
           (daily 2 100 7));
    reflexivity.
Defined.


(** * Properties of the genre recommendations *)

(** The score of the genre query is the community average of the book. *)
Lemma coalesce_avg_community (db : database) (book_id : Z) :
  (coalesce_avg db book_id == community_avg_rating db book_id)%Q.
Proof.
  unfold coalesce_avg, fetch_avg_rating, community_avg_rating.
  destruct (ratings_of db book_id); reflexivity.
Qed.

Lemma genre_candidate_true (db : database) (user_id : Z)
    (community genre : option string) (age_group : string) (b : books_row) :
  genre_candidate db user_id community genre age_group b = true
  <-> owner_in_community db b community = true
      /\ (exists g, genre = Some g)
      /\ b_genre b = genre
      /\ b_age_group b = Some age_group
      /\ b_available b = 1
      /\ (forall rh, In rh (reading_history db) ->
            rh_user_id rh = user_id -> rh_book_id rh <> b_book_id b).
Proof.
  unfold genre_candidate.
  rewrite !andb_true_iff, negb_true_iff, in_ids_false, Z.eqb_eq.
  assert (Hgenre : sql_eq_text (b_genre b) genre = true
                   <-> (exists g, genre = Some g) /\ b_genre b = genre).
  { unfold sql_eq_text. destruct (b_genre b) as [g|], genre as [g'|];
      try (split; [discriminate|intros [[? ?] ?]; congruence]).
    rewrite String.eqb_eq. split.
    - intros ->. eauto.
    - intros [_ [= ->]]. reflexivity. }
  assert (Hage : sql_eq_text (b_age_group b) (Some age_group) = true
                 <-> b_age_group b = Some age_group).
  { unfold sql_eq_text. destruct (b_age_group b) as [a|];
      [|split; discriminate].
    rewrite String.eqb_eq. split; congruence. }
  assert (Hread : ~ In (b_book_id b) (read_by db user_id)
                  <-> (forall rh, In rh (reading_history db) ->
                         rh_user_id rh = user_id ->
                         rh_book_id rh <> b_book_id b)).
  { unfold read_by. split.
    - intros Hnot rh Hrh Huser Hid. apply Hnot.
      rewrite <- Hid. apply in_map. apply List.filter_In.
      split; [assumption|]. now apply Z.eqb_eq.
    - intros Hall Hin. apply in_map_iff in Hin as (rh & Hid & Hrh).
      apply List.filter_In in Hrh as [Hrh Huser].
      apply Z.eqb_eq in Huser. now apply (Hall rh). }
  rewrite Hgenre, Hage, Hread. tauto.
Qed.

Lemma recommend_by_genre_full (db : database) (user_id : Z)
    (genre : option string) (limit : Z) (recs : list rec_t) :
  recommend_by_genre db user_id genre limit = Returns recs ->
  users db !! user_id = None /\ recs = []
  \/ exists u age full,
       users db !! user_id = Some u
       /\ u_age u = Some age
       /\ recs = sql_limit limit full
       /\ full ≡ₚ map (fun b => (b_book_id b, b_title b, b_author b,
                                 b_genre b, coalesce_avg db (b_book_id b)))
                      (List.filter
                         (genre_candidate db user_id (u_community_name u)
                            genre (age_group_of age))
                         (books db))
       /\ StronglySorted (fun r1 r2 => (rec_score r2 <= rec_score r1)%Q)
                         full.
Proof.
  unfold recommend_by_genre.
  destruct (users db !! user_id) as [u|]; [|intros [= <-]; now left].
  destruct (u_age u) as [age|] eqn:Hage; [|discriminate].
  intros [= <-]. right. exists u, age. eexists.
  split; [reflexivity|]. split; [exact Hage|]. split; [reflexivity|].
  split; [apply sort_desc_perm|].
  eapply StronglySorted_weaken;
    [|apply (sort_desc_sorted Qle_bool rec_score
               Qle_bool_total Qle_bool_trans)].
  intros x y Hxy. cbv beta in Hxy. now apply Qle_bool_iff.
Qed.

Lemma recommend_by_genre_rows (db : database) (user_id : Z)
    (genre : option string) (limit : Z) (recs : list rec_t) (r : rec_t) :
  recommend_by_genre db user_id genre limit = Returns recs ->
  In r recs ->
  exists u age b,
    users db !! user_id = Some u
    /\ u_age u = Some age
    /\ In b (books db)
    /\ rec_book r = (b_book_id b, b_title b, b_author b, b_genre b)
    /\ b_genre b = genre
    /\ b_age_group b = Some (age_group_of age)
    /\ owner_in_community db b (u_community_name u) = true
    /\ b_available b = 1
    /\ (forall rh, In rh (reading_history db) ->
          rh_user_id rh = user_id -> rh_book_id rh <> b_book_id b)
    /\ (rec_score r == community_avg_rating db (b_book_id b))%Q.
Proof.
  intros Hrun Hr.
  apply recommend_by_genre_full in Hrun
    as [[_ ->]|(u & age & full & Hu & Hage & -> & Hperm & Hsorted)];
    [destruct Hr|].
  destruct (sql_limit_prefix limit full) as [n Hn]. rewrite Hn in Hr.
  apply firstn_incl, list_elem_of_In in Hr. rewrite Hperm in Hr.
  apply list_elem_of_In, in_map_iff in Hr as (b & <- & Hb).
  apply List.filter_In in Hb as [Hb Hcand].
  apply genre_candidate_true in Hcand
    as (Hown & _ & Hgenre & Hgroup & Havail & Hread).
  exists u, age, b. cbn [rec_book rec_score fst snd].
  repeat (split; [assumption || reflexivity|]).
  apply coalesce_avg_community.
Qed.

(** X20. What [recommend_by_genre] returns is in descending order of
    score, has at most [limit] rows for a limit that is not negative, and
    every row is a catalogue book of the requested genre and of the
    reader's age bracket, owned in the reader's community, available, with
    no history row of the reader; its score is the mean of the ratings
    given to the book, 3 when there is none. *)
Theorem genre_recommendations (db : database) (user_id : Z)
    (genre : option string) (limit : Z) (recs : list rec_t) :
  recommend_by_genre db user_id genre limit = Returns recs ->
  StronglySorted (fun r1 r2 => (rec_score r2 <= rec_score r1)%Q) recs
  /\ (0 <= limit -> Z.of_nat (length recs) <= limit)
  /\ forall r, In r recs ->
       exists u age b,
         users db !! user_id = Some u
         /\ u_age u = Some age
         /\ In b (books db)
         /\ rec_book r = (b_book_id b, b_title b, b_author b, b_genre b)
         /\ b_genre b = genre
         /\ b_age_group b = Some (age_group_of age)
         /\ owner_in_community db b (u_community_name u) = true
         /\ b_available b = 1
         /\ (forall rh, In rh (reading_history db) ->
               rh_user_id rh = user_id -> rh_book_id rh <> b_book_id b)
         /\ (rec_score r == community_avg_rating db (b_book_id b))%Q.
Proof.
  intros Hrun. split; [|split].
  - apply recommend_by_genre_full in Hrun
      as [[_ ->]|(u & age & full & _ & _ & -> & _ & Hsorted)];
      [constructor|].
    destruct (sql_limit_prefix limit full) as [n ->].
    now apply firstn_sorted.
  - apply recommend_by_genre_full in Hrun
      as [[_ ->]|(u & age & full & _ & _ & -> & _ & _)]; [cbn; lia|].
    intros Hlimit. now apply sql_limit_length.
  - intros r Hr. eapply recommend_by_genre_rows; eassumption.
Qed.

Lemma genre_recommendations_witness :
  exists recs,
    recommend_by_genre library_db 2 (Some "Fantasy") 5 = Returns recs
    /\ StronglySorted (fun r1 r2 => (rec_score r2 <= rec_score r1)%Q) recs
    /\ (0 <= 5 -> Z.of_nat (length recs) <= 5)
    /\ forall r, In r recs ->
         exists u age b,
           users library_db !! 2 = Some u
           /\ u_age u = Some age
           /\ In b (books library_db)
           /\ rec_book r = (b_book_id b, b_title b, b_author b, b_genre b)
           /\ b_genre b = Some "Fantasy"
           /\ b_age_group b = Some (age_group_of age)
           /\ owner_in_community library_db b (u_community_name u) = true
           /\ b_available b = 1
           /\ (forall rh, In rh (reading_history library_db) ->
                 rh_user_id rh = 2 -> rh_book_id rh <> b_book_id b)
           /\ (rec_score r == community_avg_rating library_db (b_book_id b))%Q.
Proof.
  eexists. split; [reflexivity|].
  apply (genre_recommendations library_db 2 (Some "Fantasy") 5).
  reflexivity.
Defined.

Lemma py_slice_to_all {A} (limit : Z) (l : list A) :
  Z.of_nat (length l) <= limit -> py_slice_to limit l = l.
Proof.
  intros Hlimit. unfold py_slice_to.
  destruct (limit <? 0) eqn:Hneg; [lia|].
  apply firstn_all2. lia.
Qed.



(** * Properties of the popular books *)

Lemma zsum_concat_repeat (rs : list Z) (n : nat) :
  fold_right Z.add 0 (concat (repeat rs n))
  = Z.of_nat n * fold_right Z.add 0 rs.
Proof.
  induction n as [|n IH]; [reflexivity|].
  cbn [repeat concat]. rewrite fold_right_app.
  assert (Hsum : forall (l : list Z) (z : Z),
             fold_right Z.add z l = fold_right Z.add 0 l + z).
  { induction l as [|a l IHl]; intros z; cbn; [lia|].
    rewrite IHl. lia. }
  rewrite Hsum, IH. lia.
Qed.

Lemma length_concat_repeat {A} (rs : list A) (n : nat) :
  length (concat (repeat rs n)) = (n * length rs)%nat.
Proof.
  induction n as [|n IH]; [reflexivity|].
  cbn [repeat concat]. rewrite length_app, IH. lia.
Qed.

(** The rows that the joins produce for a book: its ratings, or one NULL,
    once per borrowing record of the book. *)
Lemma popular_join_rows (db : database) (b : books_row) :
  let n := length (List.filter (fun br => br_book_id br =? b_book_id b)
                               (borrowing_records db)) in
  let h := length (List.filter (fun rh => rh_book_id rh =? b_book_id b)
                               (reading_history db)) in
  length (popular_join db b) = (n * Nat.max 1 h)%nat
  /\ omap id (popular_join db b)
     = concat (repeat (ratings_of db (b_book_id b)) n).
Proof.
  unfold popular_join, ratings_of.
  set (hs := List.filter (fun rh => rh_book_id rh =? b_book_id b)
                         (reading_history db)).
  pose (rows := match hs with
                | [] => [None]
                | h :: l => map rh_rating (h :: l)
                end).
  change (match hs with
          | [] => [None]
          | h :: l => map rh_rating (h :: l)
          end) with rows.
  assert (Hlen : length rows = Nat.max 1 (length hs)).
  { unfold rows. destruct hs as [|h0 hs']; [reflexivity|].
    rewrite length_map. cbn [length]. lia. }
  assert (Hrat : omap id rows = omap rh_rating hs).
  { unfold rows. destruct hs as [|h0 hs']; [reflexivity|].
    generalize (h0 :: hs'). intros l.
    induction l as [|x l IH]; [reflexivity|].
    cbn. destruct (rh_rating x); cbn; now rewrite <- IH. }
  clearbody rows. clearbody hs.
  induction (borrowing_records db) as [|br brs [IHlen IHrat]];
    [split; reflexivity|].
  cbn [flat_map List.filter].
  destruct (br_book_id br =? b_book_id b).
  - cbn [length repeat concat]. split.
    + rewrite length_app, IHlen, Hlen. lia.
    + rewrite omap_app, IHrat, Hrat. reflexivity.
  - cbn [app]. split; assumption.
Qed.

Lemma mean_of_repeated (rs : list Z) (n : nat) :
  rs <> [] -> (0 < n)%nat ->
  (inject_Z (fold_right Z.add 0%Z (concat (repeat rs n)))
   / inject_Z (Z.of_nat (length (concat (repeat rs n))))
   == inject_Z (fold_right Z.add 0%Z rs)
      / inject_Z (Z.of_nat (length rs)))%Q.
Proof.
  intros Hrs Hn.
  rewrite zsum_concat_repeat, length_concat_repeat.
  rewrite Nat2Z.inj_mul, !inject_Z_mult.
  assert (Hl : ~ (inject_Z (Z.of_nat (length rs)) == 0)%Q).
  { destruct rs; [congruence|]. unfold Qeq. cbn. lia. }
  assert (Hn' : ~ (inject_Z (Z.of_nat n) == 0)%Q).
  { unfold Qeq. cbn. lia. }
  field. split; assumption.
Qed.

Lemma sql_avg_popular_join (db : database) (b : books_row) :
  popular_join db b <> [] ->
  option_Forall2 Qeq (sql_avg (popular_join db b))
                 (fetch_avg_rating db (b_book_id b)).
Proof.
  intros Hrows.
  destruct (popular_join_rows db b) as [Hlen Hrat].
  set (n := length (List.filter (fun br => br_book_id br =? b_book_id b)
                                (borrowing_records db))) in *.
  assert (Hn : (0 < n)%nat).
  { destruct n; [|lia]. destruct (popular_join db b); [congruence|].
    cbn in Hlen. lia. }
  unfold sql_avg, fetch_avg_rating. rewrite Hrat.
  destruct (ratings_of db (b_book_id b)) as [|r rs] eqn:Hrs.
  - replace (concat (repeat [] n)) with (@nil Z); [constructor|].
    clear. induction n; [reflexivity|]. cbn. assumption.
  - destruct (concat (repeat (r :: rs) n)) as [|x xs] eqn:Hcat.
    + apply (f_equal (@length Z)) in Hcat.
      rewrite length_concat_repeat in Hcat. cbn in Hcat. lia.
    + constructor. rewrite <- Hcat.
      apply mean_of_repeated; [discriminate|assumption].
Qed.

Lemma popular_row_Some (db : database) (community_name : option string)
    (b : books_row) (r : popular_t) :
  popular_row db community_name b = Some r ->
  owner_in_community db b community_name = true
  /\ fst (fst (fst r)) = b_title b
  /\ snd (fst (fst r)) = b_author b
  /\ 0 < borrow_records_of db (b_book_id b)
  /\ popular_count r
     = borrow_records_of db (b_book_id b)
       * Z.max 1 (history_rows_of db (b_book_id b))
  /\ option_Forall2 Qeq (snd r) (fetch_avg_rating db (b_book_id b)).
Proof.
  unfold popular_row.
  destruct (owner_in_community db b community_name); [|discriminate].
  pose proof (sql_avg_popular_join db b) as Havg.
  destruct (popular_join_rows db b) as [Hlen _].
  assert (Hcount : Z.of_nat (length (popular_join db b))
                   = borrow_records_of db (b_book_id b)
                     * Z.max 1 (history_rows_of db (b_book_id b))).
  { unfold borrow_records_of, history_rows_of.
    rewrite Hlen, Nat2Z.inj_mul, Nat2Z.inj_max. reflexivity. }
  clear Hlen.
  destruct (popular_join db b) as [|row rows] eqn:Hjoin; [discriminate|].
  intros [= <-]. unfold popular_count. cbn [fst snd].
  split; [reflexivity|]. split; [reflexivity|]. split; [reflexivity|].
  split; [|split].
  - assert (0 < Z.of_nat (length (row :: rows))) by (cbn [length]; lia).
    assert (0 <= Z.max 1 (history_rows_of db (b_book_id b))) by lia.
    assert (0 <= borrow_records_of db (b_book_id b))
      by (unfold borrow_records_of; lia).
    nia.
  - exact Hcount.
  - apply Havg. discriminate.
Qed.

(** X22. [get_popular_books] lists, in descending order of
    [borrow_count] and at most [limit] of them, books owned in the
    community that have at least one borrowing record.  The count is the
    number of rows of the join, not the number of loans: it is the number
    of borrowing records of the book multiplied by the number of its
    history rows when it has any.  The average is the mean of the ratings
    of the book, NULL when it has none. *)
Theorem popular_books_count_join_rows (db : database)
    (community_name : option string) (limit : Z) :
  let result := get_popular_books db community_name limit in
  StronglySorted (fun r1 r2 => popular_count r2 <= popular_count r1) result
  /\ (0 <= limit -> Z.of_nat (length result) <= limit)
  /\ forall r, In r result ->
       exists b,
         In b (books db)
         /\ owner_in_community db b community_name = true
         /\ fst (fst (fst r)) = b_title b
         /\ snd (fst (fst r)) = b_author b
         /\ 0 < borrow_records_of db (b_book_id b)
         /\ popular_count r
            = borrow_records_of db (b_book_id b)
              * Z.max 1 (history_rows_of db (b_book_id b))
         /\ option_Forall2 Qeq (snd r) (fetch_avg_rating db (b_book_id b)).
Proof.
  intros result. subst result. unfold get_popular_books.
  set (groups := omap (popular_row db community_name) (books db)).
  destruct (sql_limit_prefix limit (sort_desc Z.leb popular_count groups))
    as [n Hn].
  split; [|split].
  - rewrite Hn. apply firstn_sorted.
    eapply StronglySorted_weaken;
      [|apply (sort_desc_sorted Z.leb popular_count Zleb_total Zleb_trans)].
    intros x y Hxy. cbv beta in Hxy. now apply Z.leb_le.
  - apply sql_limit_length.
  - intros r Hr. rewrite Hn in Hr.
    apply firstn_incl, list_elem_of_In in Hr.
    rewrite sort_desc_perm in Hr.
    apply list_elem_of_omap in Hr as (b & Hb & Hrow).
    exists b. split; [now apply list_elem_of_In|].
    now apply popular_row_Some.
Qed.

(** * Properties of adding a book *)





(** X24. A newly added book reaches the readers it suits: a child of the
    owner's community whose age bracket is the book's, and who has no
    history row and no active borrowing record for the new id, gets the
    book from [recommend_books] whenever the limit exceeds the size of the
    former catalogue. *)
Theorem added_book_is_recommended (db : database) (title : string)
    (author genre : option string) (owner_id new_id reader limit age : Z)
    (u owner : users_row) :
  users db !! reader = Some u ->
  u_age u = Some age ->
  users db !! owner_id = Some owner ->
  sql_eq_text (u_community_name owner) (u_community_name u) = true ->
  (forall rh, In rh (reading_history db) ->
     rh_user_id rh = reader -> rh_book_id rh <> new_id) ->
  (forall br, In br (borrowing_records db) ->
     br_borrower_id br = reader -> br_status br = "active" ->
     br_book_id br <> new_id) ->
  Z.of_nat (length (books db)) < limit ->
  let db1 :=
    snd (add_book title author genre (Some (age_group_of age)) owner_id
                  new_id db) in
  exists recs r,
    recommend_books db1 reader limit = Returns recs
    /\ In r recs
    /\ rec_book r = (new_id, title, author, genre).
Proof.
  intros Hu Hage Howner Hcommunity Hread Hheld Hlimit db1.
  assert (Hdb1 : db1
                 = {| users := users db;
                      books :=
                        (books db
                         ++ [{| b_book_id := new_id;
                                b_title := title;
                                b_author := author;
                                b_genre := genre;
                                b_age_group := Some (age_group_of age);
                                b_owner_id := owner_id;
                                b_available := 1 |}])%list;
                      borrowing_records := borrowing_records db;
                      reading_history := reading_history db;
                      user_stats := user_stats db |}) by reflexivity.
  clearbody db1. subst db1.
  rewrite recommend_books_unfold. cbn [users]. rewrite Hu, Hage.
  match goal with
  | |- context [fetch_available_books ?d _ _ _] => set (db1 := d)
  end.
  set (pool := fetch_available_books db1 reader (u_community_name u)
                 (age_group_of age)).
  assert (Hpool : In (new_id, title, author, genre) pool).
  { apply fetch_available_books_In.
    eexists {| b_book_id := new_id |}. split.
    - cbn [books db1]. apply in_or_app. right. left. reflexivity.
    - cbn [b_book_id b_title b_author b_genre b_age_group b_available].
      split; [reflexivity|]. split.
      { unfold owner_in_community. cbn [b_owner_id users db1].
        rewrite Howner. exact Hcommunity. }
      split; [reflexivity|]. split; [reflexivity|].
      split; [exact Hread|exact Hheld]. }
  assert (Hlen : (length pool <= S (length (books db)))%nat).
  { unfold pool, fetch_available_books. rewrite length_map.
    etransitivity; [apply List.filter_length_le|].
    cbn [books db1]. rewrite length_app. cbn. lia. }
  eexists _, (score_book db1 reader (get_user_reading_profile db1 reader)
                (new_id, title, author, genre)).
  split; [reflexivity|]. split.
  - rewrite py_slice_to_all.
    + apply list_elem_of_In. rewrite sort_desc_perm.
      apply list_elem_of_In, in_map, Hpool.
    + rewrite (Permutation_length (sort_desc_perm _ _ _)), length_map.
      fold pool. lia.
  - apply score_book_split.
Qed.

Lemma added_book_is_recommended_witness :
  let db1 :=
    snd (add_book "Holes" (Some "Louis Sachar") (Some "Adventure")
                  (Some (age_group_of 10)) 1 6 library_db) in
  exists recs r,
    recommend_books db1 2 10 = Returns recs
    /\ In r recs
    /\ rec_book r = (6, "Holes", Some "Louis Sachar", Some "Adventure").
Proof.
  apply (added_book_is_recommended library_db "Holes" (Some "Louis Sachar")
           (Some "Adventure") 1 6 2 10 10
           {| u_community_name := Some "Green Valley";
              u_user_type := Some "child"; u_age := Some 10 |}
           {| u_community_name := Some "Green Valley";
              u_user_type := Some "parent"; u_age := None |}).
  - reflexivity.
  - reflexivity.
  - reflexivity.
  - reflexivity.
  - intros rh Hin _. cbn in Hin.
    repeat (destruct Hin as [<-|Hin]; [cbn; lia|]). destruct Hin.
  - intros br [].
  - cbn. lia.
Defined.


(** * Further properties of the handlers *)



(** * Symmetry of the similarity score *)

Lemma sql_eq_text_sym (a b : option string) :
  sql_eq_text a b = sql_eq_text b a.
Proof.
  destruct a as [x|], b as [y|]; try reflexivity.
  cbn. apply String.eqb_sym.
Qed.

(** With pairwise different ids, looking an id up gives the row that
    carries it. *)
Lemma find_book_unique (l : list books_row) (b : books_row) :
  List.NoDup (map b_book_id l) -> In b l ->
  List.find (fun x => b_book_id x =? b_book_id b) l = Some b.
Proof.
  induction l as [|a l IH]; intros Hnd Hin; [destruct Hin|].
  cbn in Hnd. apply List.NoDup_cons_iff in Hnd as [Hfresh Hnd].
  cbn. destruct Hin as [->|Hin].
  - rewrite Z.eqb_refl. reflexivity.
  - destruct (Z.eqb_spec (b_book_id a) (b_book_id b)) as [Heq|_].
    + exfalso. apply Hfresh. rewrite Heq. now apply in_map.
    + now apply IH.
Qed.

Lemma find_similar_books_offers (db : database) (a b : books_row)
    (limit : Z) :
  book_ids_unique db ->
  In a (books db) -> In b (books db) ->
  b_book_id b <> b_book_id a ->
  sql_eq_text (b_age_group b) (b_age_group a) = true ->
  b_available b = 1 ->
  limit < 0 \/ Z.of_nat (length (books db)) <= limit ->
  In (similarity_row (b_genre a) (b_author a) b)
     (find_similar_books db (b_book_id a) limit).
Proof.
  intros Hunique Ha Hb Hne Hage Havail Hlimit.
  destruct (find_similar_books_found db (b_book_id a) limit a
              (find_book_unique _ _ Hunique Ha))
    as (full & -> & Hperm & _).
  rewrite sql_limit_all.
  - apply list_elem_of_In. rewrite Hperm.
    apply list_elem_of_In, in_map, List.filter_In. split; [assumption|].
    unfold similarity_candidate. rewrite Hage, Havail.
    destruct (Z.eqb_spec (b_book_id b) (b_book_id a)); [contradiction|].
    reflexivity.
  - destruct Hlimit as [Hneg|Hsize]; [now left|right].
    rewrite Hperm, length_map.
    pose proof (List.filter_length_le
                  (similarity_candidate (b_book_id a) (b_age_group a))
                  (books db)).
    lia.
Qed.

(** X26. Similarity is mutual: for two available catalogue books with
    different ids and the same age group, in a catalogue whose ids are
    pairwise different, and a limit that does not cut the result, each of
    the two is offered by [find_similar_books] for the other, with the
    same similarity score. *)
Theorem similar_books_are_mutual (db : database) (a b : books_row)
    (limit : Z) :
  book_ids_unique db ->
  In a (books db) -> In b (books db) ->
  b_book_id a <> b_book_id b ->
  sql_eq_text (b_age_group a) (b_age_group b) = true ->
  b_available a = 1 -> b_available b = 1 ->
  limit < 0 \/ Z.of_nat (length (books db)) <= limit ->
  exists score,
    In (b_book_id b, b_title b, b_author b, b_genre b, score)
       (find_similar_books db (b_book_id a) limit)
    /\ In (b_book_id a, b_title a, b_author a, b_genre a, score)
          (find_similar_books db (b_book_id b) limit)
    /\ score = (if sql_eq_text (b_genre a) (b_genre b) then 3 else 0)
               + (if sql_eq_text (b_author a) (b_author b) then 2 else 0).
Proof.
  intros Hunique Ha Hb Hne Hage Hava Havb Hlimit.
  eexists. split; [|split; [|reflexivity]].
  - pose proof (find_similar_books_offers db a b limit Hunique Ha Hb
                  ltac:(congruence)
                  ltac:(rewrite sql_eq_text_sym; exact Hage) Havb Hlimit)
      as Hin.
    unfold similarity_row in Hin.
    rewrite (sql_eq_text_sym (b_genre b)),
            (sql_eq_text_sym (b_author b)) in Hin.
    exact Hin.
  - exact (find_similar_books_offers db b a limit Hunique Hb Ha Hne Hage
             Hava Hlimit).
Qed.

Lemma similar_books_are_mutual_witness :
  exists score,
    In (3, "Percy Jackson", Some "Rick Riordan", Some "Fantasy", score)
       (find_similar_books library_db 1 (-1))
    /\ In (1, "Harry Potter", Some "J.K. Rowling", Some "Fantasy", score)
          (find_similar_books library_db 3 (-1))
    /\ score = (if sql_eq_text (Some "Fantasy") (Some "Fantasy")
                then 3 else 0)
               + (if sql_eq_text (Some "J.K. Rowling") (Some "Rick Riordan")
                  then 2 else 0).
Proof.
  apply (similar_books_are_mutual library_db
           (mk_book 1 "Harry Potter" "J.K. Rowling" "Fantasy")
           (mk_book 3 "Percy Jackson" "Rick Riordan" "Fantasy") (-1)).
  - unfold book_ids_unique. cbn.
    repeat (constructor; [cbn; intuition lia|]). constructor.
  - cbn. tauto.
  - cbn. tauto.
  - cbn. lia.
  - reflexivity.
  - reflexivity.
  - reflexivity.
  - left. lia.
Defined.

(** * The keys of the reading profile *)

Lemma accumulate_keys (acc : gmap (option string) Q * gmap (option string) Q)
    (row : history_row_t) (g a : option string) :
  (is_Some (fst (accumulate acc row) !! g)
   <-> is_Some (fst acc !! g)
       \/ (row_genre row = g /\ truthy (snd row) = true))
  /\ (is_Some (snd (accumulate acc row) !! a)
      <-> is_Some (snd acc !! a)
          \/ (row_author row = a /\ truthy (snd row) = true)).
Proof.
  destruct acc as [G A], row as [[[g' a'] ag] [r|]];
    cbn [accumulate fst snd truthy row_genre row_author].
  - unfold row_genre, row_author. cbn [fst snd].
    destruct (Z.eqb_spec r 0) as [->|Hr]; cbn [negb fst snd].
    + split; split; intros H; try tauto;
        destruct H as [H|[_ H]]; [assumption|discriminate
                                 |assumption|discriminate].
    + unfold dd_add. split.
      * rewrite lookup_insert_is_Some. split.
        -- intros [<-|[_ H]]; [right; split; reflexivity|now left].
        -- intros [H|[<- _]]; [|now left].
           destruct (decide (g' = g)) as [<-|Hne]; [now left|right].
           split; assumption.
      * rewrite lookup_insert_is_Some. split.
        -- intros [<-|[_ H]]; [right; split; reflexivity|now left].
        -- intros [H|[<- _]]; [|now left].
           destruct (decide (a' = a)) as [<-|Hne]; [now left|right].
           split; assumption.
  - split; split; intros H; try tauto;
      destruct H as [H|[_ H]]; [assumption|discriminate
                               |assumption|discriminate].
Qed.

Lemma fold_accumulate_keys (history : list history_row_t) :
  forall (acc : gmap (option string) Q * gmap (option string) Q)
         (g a : option string),
    (is_Some (fst (fold_left accumulate history acc) !! g)
     <-> is_Some (fst acc !! g)
         \/ exists row, In row history /\ row_genre row = g
                        /\ truthy (snd row) = true)
    /\ (is_Some (snd (fold_left accumulate history acc) !! a)
        <-> is_Some (snd acc !! a)
            \/ exists row, In row history /\ row_author row = a
                           /\ truthy (snd row) = true).
Proof.
  induction history as [|row history IH]; intros acc g a; cbn [fold_left].
  - split; (split; [now left|]); intros [H|(row & [] & _)]; exact H.
  - destruct (IH (accumulate acc row) g a) as [IHg IHa].
    destruct (accumulate_keys acc row g a) as [Hg Ha].
    rewrite IHg, IHa, Hg, Ha. cbn [In]. split; split.
    + intros [[H|[Hk Ht]]|(row' & Hin & Hk & Ht)];
        [now left|right; exists row; auto|right; exists row'; auto].
    + intros [H|(row' & [<-|Hin] & Hk & Ht)];
        [left; now left|left; right; auto|right; exists row'; auto].
    + intros [[H|[Hk Ht]]|(row' & Hin & Hk & Ht)];
        [now left|right; exists row; auto|right; exists row'; auto].
    + intros [H|(row' & [<-|Hin] & Hk & Ht)];
        [left; now left|left; right; auto|right; exists row'; auto].
Qed.

(** X27. The reading profile: [total_books] is the number of the reader's
    history rows joined to the catalogue, rated or not; a genre, or an
    author, is a key of the profile exactly when one of these rows has it
    and carries a rating other than 0; and the weight under a key is the
    sum of the ratings of the rows that have it. *)
Theorem profile_keys_are_rated (db : database) (user_id : Z) :
  let p := get_user_reading_profile db user_id in
  total_books p = Z.of_nat (length (fetch_history db user_id))
  /\ (forall g,
        is_Some (genres p !! g)
        <-> exists row, In row (fetch_history db user_id)
                        /\ row_genre row = g /\ truthy (snd row) = true)
  /\ (forall a,
        is_Some (authors p !! a)
        <-> exists row, In row (fetch_history db user_id)
                        /\ row_author row = a /\ truthy (snd row) = true)
  /\ (forall g w, genres p !! g = Some w ->
        (w == genre_weight db user_id g)%Q)
  /\ (forall a w, authors p !! a = Some w ->
        (w == author_weight db user_id a)%Q).
Proof.
  intros p.
  assert (Hg := fun g => profile_genres db user_id g).
  assert (Ha := fun a => profile_authors db user_id a).
  fold p in Hg, Ha.
  assert (Hkeys := fun g a =>
            fold_accumulate_keys (fetch_history db user_id) (∅, ∅) g a).
  assert (Hp : genres p
               = fst (fold_left accumulate (fetch_history db user_id) (∅, ∅))
               /\ authors p
                  = snd (fold_left accumulate (fetch_history db user_id)
                           (∅, ∅))
               /\ total_books p
                  = Z.of_nat (length (fetch_history db user_id))).
  { unfold p, get_user_reading_profile.
    destruct (fold_left accumulate (fetch_history db user_id) (∅, ∅)).
    repeat split. }
  destruct Hp as (HG & HA & Htotal).
  split; [exact Htotal|]. split; [|split; [|split]].
  - intros g. rewrite HG. destruct (Hkeys g None) as [Hk _].
    rewrite Hk. cbn [fst]. rewrite lookup_empty. split.
    + intros [[x Hx]|H]; [discriminate|exact H].
    + intros H. now right.
  - intros a. rewrite HA. destruct (Hkeys None a) as [_ Hk].
    rewrite Hk. cbn [snd]. rewrite lookup_empty. split.
    + intros [[x Hx]|H]; [discriminate|exact H].
    + intros H. now right.
  - intros g w Hw. specialize (Hg g). rewrite Hw in Hg. exact Hg.
  - intros a w Hw. specialize (Ha a). rewrite Hw in Ha. exact Ha.
Qed.
